(** * EasyAsync: task lifecycle and callback delivery

    A shallow embedding of [lib/EasyAsync/src/EasyAsync.h].

    Conventions of the embedding.
    - [uint32_t] and [UBaseType_t] configuration fields are [N]; signed
      [BaseType_t] and the millisecond timestamps are [Z], the [uint32_t]
      subtraction of two timestamps being written with its wrap-around
      ([wrap32]).
    - Every call of an operating-system primitive whose answer the library
      cannot predict takes that answer as an argument: [now] is what
      [millis()] returns, [launch] is the handle [xTaskCreate] /
      [xTaskCreatePinnedToCore] hands back ([None] when the result is not
      [pdPASS]), [acquired] is the result of [xSemaphoreTake(mutex, 0)].
      A take with [portMAX_DELAY] blocks until the mutex is free and is
      modelled as succeeding.
    - User callables are described by what a call does: it returns a value
      or raises ([Outcome]).  That a callable was entered is recorded in
      the [trace] of the [World], so that "invoked once" and "never
      executed" are statements about that trace.
    - A [TaskHandle_t] is a natural number; [nullptr] is [None].  The
      Launcher's live execution contexts are a finite map from handles. *)

From stdpp Require Import gmap list strings pretty.
From Stdlib Require Import ZArith Lia.

Open Scope Z_scope.

(** ** Machine integers and outcomes *)

Definition wrap32 (z : Z) : Z := z mod 2 ^ 32.

Definition uint32 (z : Z) : Prop := 0 <= z < 2 ^ 32.

(** What calling a C++ callable does: it returns or it throws. *)
Inductive Outcome (A : Type) : Type :=
  | Returned (a : A)
  | Threw.
Arguments Returned {A} a.
Arguments Threw {A}.

Definition TaskHandle_t : Type := nat.

(** ** Configuration records *)

Record AsyncConfig := mkAsyncConfig {
  defaultStackSize : N;
  defaultPriority : N;
  defaultCore : Z;
  maxConcurrentTasks : N;
  executeCallbacksInLoop : bool
}.

Inductive TaskState := Pending | Running | Completed | Failed | Cancelled.

#[global] Instance TaskState_eq_dec : EqDecision TaskState.
Proof. solve_decision. Defined.

Record TaskConfig := mkTaskConfig {
  stackSize : N;
  priority : N;
  core : Z;
  name : option string;
  timeoutMs : N;
  executeInLoop : bool
}.

Section Defaults.
(** [tskNO_AFFINITY] comes from the FreeRTOS headers, which are not part
    of the repository: it is a parameter of the development. *)
Variable tskNO_AFFINITY : Z.

(** The member initialisers of [struct AsyncConfig]. *)
Definition AsyncConfig_default : AsyncConfig :=
  {| defaultStackSize := 4096; defaultPriority := 1;
     defaultCore := tskNO_AFFINITY; maxConcurrentTasks := 10;
     executeCallbacksInLoop := true |}.

(** The member initialisers of [struct TaskConfig]. *)
Definition TaskConfig_default : TaskConfig :=
  {| stackSize := 0; priority := 0; core := tskNO_AFFINITY; name := None;
     timeoutMs := 0; executeInLoop := true |}.
End Defaults.

(** ** class TaskHandle *)

Record TaskHandle := mkTaskHandle {
  taskHandle : option TaskHandle_t;
  state : TaskState;
  cancelled : bool;
  startTime : Z;
  endTime : Z
}.

Module TaskHandle.

(** [TaskHandle()] *)
Definition new : TaskHandle :=
  {| taskHandle := None; state := Pending; cancelled := false;
     startTime := 0; endTime := 0 |}.

Definition setHandle (handle : option TaskHandle_t) (now : Z)
    (h : TaskHandle) : TaskHandle :=
  {| taskHandle := handle; state := Running; cancelled := cancelled h;
     startTime := now; endTime := endTime h |}.

Definition getHandle (h : TaskHandle) : option TaskHandle_t := taskHandle h.

Definition getState (h : TaskHandle) : TaskState := state h.

Definition is_terminal (s : TaskState) : bool :=
  match s with
  | Completed | Failed | Cancelled => true
  | Pending | Running => false
  end.

Definition setState (newState : TaskState) (now : Z)
    (h : TaskHandle) : TaskHandle :=
  {| taskHandle := taskHandle h; state := newState;
     cancelled := cancelled h; startTime := startTime h;
     endTime := if is_terminal newState then now else endTime h |}.

Definition isCancelled (h : TaskHandle) : bool := cancelled h.

Section Launcher.
Context {A : Type}.

(** [vTaskDelete(handle)]: the Launcher forgets the context. *)
Definition vTaskDelete (handle : TaskHandle_t)
  (live : gmap TaskHandle_t A) : gmap TaskHandle_t A :=
  delete handle live.

Definition cancel (now : Z) (h : TaskHandle)
  (live : gmap TaskHandle_t A) : TaskHandle * gmap TaskHandle_t A :=
  let h := {| taskHandle := taskHandle h; state := state h;
              cancelled := true; startTime := startTime h;
              endTime := endTime h |} in
  match taskHandle h with
  | Some handle =>
      if bool_decide (state h = Running) then
        let h := setState Cancelled now h in
        let live := vTaskDelete handle live in
        ({| taskHandle := None; state := state h;
            cancelled := cancelled h; startTime := startTime h;
            endTime := endTime h |}, live)
      else (h, live)
  | None => (h, live)
  end.
End Launcher.

Definition isRunning (h : TaskHandle) : bool :=
  bool_decide (state h = Running) && negb (cancelled h).

Definition getExecutionTime (now : Z) (h : TaskHandle) : Z :=
  if startTime h =? 0 then 0
  else if endTime h =? 0 then wrap32 (now - startTime h)
  else wrap32 (endTime h - startTime h).

End TaskHandle.

(** ** class CallbackQueue *)

Module CallbackQueue.
Section Queue.
(** [T] stands for [std::function<void()>]; [call] is what invoking such a
    thunk does. *)
Context {T : Type} (call : T -> Outcome unit).

(** [enqueue]: the take with [portMAX_DELAY] blocks until the mutex is
    free, then the thunk is pushed at the back. *)
Definition enqueue (callback : T) (queue : list T) : list T :=
  queue ++ [callback].

(** The [while] loop of [process], entered with the mutex held.  Each turn
    pops the front, gives the mutex back, calls the thunk and takes the
    mutex again.  While the mutex is free other threads (or the thunk
    itself) may [enqueue]: [arrivals] lists, turn by turn, what was pushed
    in that window; when it is exhausted nothing more arrives.  A thunk
    that throws leaves [process] by the exception, the mutex free and the
    rest of the queue in place.

    The result is the thunks called, in order, how the loop ended, and the
    queue left behind. *)
Fixpoint drain_quiet (queue : list T) : list T * Outcome unit * list T :=
  match queue with
  | [] => ([], Returned (), [])
  | callback :: queue =>
      match call callback with
      | Returned _ =>
          let '(done, out, rest) := drain_quiet queue in
          (callback :: done, out, rest)
      | Threw => ([callback], Threw, queue)
      end
  end.

Fixpoint drain (arrivals : list (list T)) (queue : list T)
  : list T * Outcome unit * list T :=
  match arrivals with
  | [] => drain_quiet queue
  | arrived :: arrivals =>
      match queue with
      | [] => ([], Returned (), [])
      | callback :: queue =>
          match call callback with
          | Returned _ =>
              let '(done, out, rest) := drain arrivals (queue ++ arrived) in
              (callback :: done, out, rest)
          | Threw => ([callback], Threw, queue ++ arrived)
          end
      end
  end.

(** [process]: [xSemaphoreTake(mutex, 0)] either gets the mutex at once or
    the call does nothing. *)
Definition process (acquired : bool) (arrivals : list (list T))
  (queue : list T) : list T * Outcome unit * list T :=
  if acquired then drain arrivals queue
  else ([], Returned (), queue).

Definition size (queue : list T) : nat := length queue.

(** Several [enqueue] calls, one after the other. *)
Definition enqueue_all (callbacks : list T) (queue : list T) : list T :=
  fold_left (fun queue callback => enqueue callback queue) callbacks queue.
End Queue.
End CallbackQueue.


(** ** Closures, the Launcher and the shared world *)

(** The completion thunk [callbackWrapper]: the captured callback and the
    captured result; calling it passes the result to the callback. *)
Record Thunk (R : Type) := mkThunk {
  th_callback : R -> Outcome unit;
  th_result : R
}.
Arguments mkThunk {R} _ _.
Arguments th_callback {R} _ _.
Arguments th_result {R} _.

Definition call_thunk {R : Type} (th : Thunk R) : Outcome unit :=
  th_callback th (th_result th).

(** What [Task::run] asks of the Launcher. *)
Inductive LaunchCall :=
  | xTaskCreate (pcName : option string) (usStackDepth uxPriority : N)
  | xTaskCreatePinnedToCore (pcName : option string)
      (usStackDepth uxPriority : N) (xCoreID : Z).

(** Calls into code the library does not own, in the order they happen. *)
Inductive Event (R : Type) :=
  | WorkCalled
  | CallbackCalled (callback : R -> Outcome unit) (result : R)
  | LauncherCalled (call : LaunchCall).
Arguments WorkCalled {R}.
Arguments CallbackCalled {R} _ _.
Arguments LauncherCalled {R} _.

(** The [taskFunc] lambda of the [Task] constructor: it captures the work
    callable, the completion callable and the configuration (and the
    shared [TaskHandle], which the state below stores once). *)
Record Closure (R : Type) := mkClosure {
  cl_func : Outcome R;
  cl_callback : R -> Outcome unit;
  cl_cfg : TaskConfig
}.
Arguments mkClosure {R} _ _ _.
Arguments cl_func {R} _.
Arguments cl_callback {R} _ _.
Arguments cl_cfg {R} _.

(** Where a live execution context stands in the wrapper body: before the
    cancellation check, inside the work callable, or inside a completion
    thunk called on the worker. *)
Inductive Phase (R : Type) :=
  | AtEntry
  | InWork
  | InCallback (th : Thunk R).
Arguments AtEntry {R}.
Arguments InWork {R}.
Arguments InCallback {R} _.

Record Context (R : Type) := mkContext {
  ctx_closure : Closure R;
  ctx_phase : Phase R
}.
Arguments mkContext {R} _ _.
Arguments ctx_closure {R} _.
Arguments ctx_phase {R} _.

(** Everything the tasks of a process share: [globalConfig], the
    [CallbackQueue] singleton, the [static taskCounter] of [run], the
    Launcher's live contexts, and the trace. *)
Record World (R : Type) := mkWorld {
  globalConfig : AsyncConfig;
  callbackQueue : list (Thunk R);
  taskCounter : N;
  live : gmap TaskHandle_t (Context R);
  trace : list (Event R)
}.
Arguments mkWorld {R} _ _ _ _ _.
Arguments globalConfig {R} _.
Arguments callbackQueue {R} _.
Arguments taskCounter {R} _.
Arguments live {R} _.
Arguments trace {R} _.

Section WorldUpdates.
Context {R : Type}.

Definition set_globalConfig (g : AsyncConfig) (w : World R) : World R :=
  mkWorld g (callbackQueue w) (taskCounter w) (live w) (trace w).

Definition set_callbackQueue (q : list (Thunk R)) (w : World R) : World R :=
  mkWorld (globalConfig w) q (taskCounter w) (live w) (trace w).

Definition set_taskCounter (c : N) (w : World R) : World R :=
  mkWorld (globalConfig w) (callbackQueue w) c (live w) (trace w).

Definition set_live (l : gmap TaskHandle_t (Context R)) (w : World R)
  : World R :=
  mkWorld (globalConfig w) (callbackQueue w) (taskCounter w) l (trace w).

Definition record (evs : list (Event R)) (w : World R) : World R :=
  mkWorld (globalConfig w) (callbackQueue w) (taskCounter w) (live w)
    (trace w ++ evs).

(** The process at start-up: the global [AsyncConfig globalConfig;], an
    empty queue, no context. *)
Definition boot (tskNO_AFFINITY : Z) : World R :=
  mkWorld (AsyncConfig_default tskNO_AFFINITY) [] 0 ∅ [].
End WorldUpdates.

(** ** class Task *)

Record Task (R : Type) := mkTask {
  handle : option TaskHandle;
  config : TaskConfig;
  taskFunc : option (Closure R)
}.
Arguments mkTask {R} _ _ _.
Arguments handle {R} _.
Arguments config {R} _.
Arguments taskFunc {R} _.

Module Task.
Section Task.
Context {R : Type}.
Variable tskNO_AFFINITY : Z.

(** [Task()] *)
Definition new : Task R :=
  mkTask (Some TaskHandle.new) (TaskConfig_default tskNO_AFFINITY) None.

(** [Task(Func func, Callback callback, const TaskConfig& cfg)] *)
Definition make (func : Outcome R) (callback : R -> Outcome unit)
  (cfg : TaskConfig) : Task R :=
  mkTask (Some TaskHandle.new) cfg (Some (mkClosure func callback cfg)).

(** [Task(Task&& other)]: the new task and what is left in [other]. *)
Definition move (other : Task R) : Task R * Task R :=
  (mkTask (handle other) (config other) (taskFunc other),
   mkTask None (config other) None).

(** The three effective values [run] computes. *)
Definition effectiveStackSize (cfg : TaskConfig) (g : AsyncConfig) : N :=
  if (0 <? stackSize cfg)%N then stackSize cfg else defaultStackSize g.

Definition effectivePriority (cfg : TaskConfig) (g : AsyncConfig) : N :=
  if (0 <? priority cfg)%N then priority cfg else defaultPriority g.

Definition effectiveCore (cfg : TaskConfig) (g : AsyncConfig) : Z :=
  if bool_decide (core cfg ≠ tskNO_AFFINITY) then core cfg
  else defaultCore g.

Definition launchCall (cfg : TaskConfig) (g : AsyncConfig) : LaunchCall :=
  let stackSize := effectiveStackSize cfg g in
  let priority := effectivePriority cfg g in
  let core := effectiveCore cfg g in
  if bool_decide (core ≠ tskNO_AFFINITY)
  then xTaskCreatePinnedToCore (name cfg) stackSize priority core
  else xTaskCreate (name cfg) stackSize priority.

(** [snprintf(taskName, sizeof(taskName), "Task_%lu", taskCounter++)]:
    five letters and at most ten digits fit the sixteen bytes. *)
Definition taskName (counter : N) : string := "Task_" +:+ pretty counter.

(** The first lines of [run]: a task without a name gets the next
    sequential one, written into its own [config].  The name is kept
    here as a value.  The source stores in [config.name] a pointer to the
    local buffer [taskName] of this call of [run], which holds the name
    for the Launcher call of this [run] and not beyond it; nothing below
    reads the name of a task after the [run] that generated it. *)
Definition named (t : Task R) (w : World R) : TaskConfig * World R :=
  match name (config t) with
  | None =>
      (mkTaskConfig (stackSize (config t)) (priority (config t))
         (core (config t)) (Some (taskName (taskCounter w)))
         (timeoutMs (config t)) (executeInLoop (config t)),
       set_taskCounter ((taskCounter w + 1) mod 2 ^ 32)%N w)
  | Some _ => (config t, w)
  end.

(** [run()].  The result is [None] where the source dereferences a null
    [handle] (a task that kept its [taskFunc] and lost its [handle]). *)
Definition run (launch : option TaskHandle_t) (now : Z) (t : Task R)
  (w : World R) : option (bool * Task R * World R) :=
  match taskFunc t with
  | None => Some (false, t, w)
  | Some f =>
      let '(cfg, w) := named t w in
      let w := record [LauncherCalled (launchCall cfg (globalConfig w))] w in
      match launch with
      | None =>
          h ← handle t;
          Some (false,
                mkTask (Some (TaskHandle.setState Failed now h)) cfg (Some f),
                w)
      | Some taskHandle =>
          let w := set_live (<[taskHandle := mkContext f AtEntry]> (live w)) w in
          h ← handle t;
          Some (true,
                mkTask (Some (TaskHandle.setHandle (Some taskHandle) now h))
                  cfg (Some f),
                w)
      end
  end.

Definition cancel (now : Z) (t : Task R) (w : World R) : Task R * World R :=
  match handle t with
  | Some h =>
      let '(h, l) := TaskHandle.cancel now h (live w) in
      (mkTask (Some h) (config t) (taskFunc t), set_live l w)
  | None => (t, w)
  end.

Definition getState (t : Task R) : TaskState :=
  match handle t with
  | Some h => TaskHandle.getState h
  | None => Failed
  end.

Definition isRunning (t : Task R) : bool :=
  match handle t with
  | Some h => TaskHandle.isRunning h
  | None => false
  end.

Definition isCancelled (t : Task R) : bool :=
  match handle t with
  | Some h => TaskHandle.isCancelled h
  | None => false
  end.

Definition getExecutionTime (now : Z) (t : Task R) : Z :=
  match handle t with
  | Some h => TaskHandle.getExecutionTime now h
  | None => 0
  end.

(** [executeTask], the overload for a work callable with a result, run
    from its first line to its last with nothing in between.  The overload
    for [void] work differs only in that no result is captured: it is this
    function at [R := unit]. *)
Definition executeTask (func : Outcome R) (callback : R -> Outcome unit)
  (h : TaskHandle) (cfg : TaskConfig) (now : Z) (w : World R)
  : TaskHandle * World R :=
  if TaskHandle.isCancelled h then (h, w)
  else
    let w := record [WorkCalled] w in
    match func with
    | Returned result =>
        if negb (TaskHandle.isCancelled h) then
          let h := TaskHandle.setState Completed now h in
          let callbackWrapper := mkThunk callback result in
          if executeInLoop cfg then
            (h, set_callbackQueue
                  (CallbackQueue.enqueue callbackWrapper (callbackQueue w)) w)
          else
            let w := record [CallbackCalled callback result] w in
            match call_thunk callbackWrapper with
            | Returned _ => (h, w)
            | Threw => (TaskHandle.setState Failed now h, w)
            end
        else (h, w)
    | Threw => (TaskHandle.setState Failed now h, w)
    end.

(** The same body, one atomic piece at a time, for a context that other
    threads may interleave with: up to the call of the work callable, from
    its return to the delivery of the thunk, and from the return of a
    thunk called on the worker to the end.  [None] is the end of the
    wrapper, [vTaskDelete(NULL)]. *)
Definition wrapper_step (f : Closure R) (ph : Phase R) (now : Z)
  (h : TaskHandle) (w : World R) : option (Phase R) * TaskHandle * World R :=
  match ph with
  | AtEntry =>
      if TaskHandle.isCancelled h then (None, h, w)
      else (Some InWork, h, record [WorkCalled] w)
  | InWork =>
      match cl_func f with
      | Returned result =>
          if negb (TaskHandle.isCancelled h) then
            let h := TaskHandle.setState Completed now h in
            let callbackWrapper := mkThunk (cl_callback f) result in
            if executeInLoop (cl_cfg f) then
              (None, h,
               set_callbackQueue
                 (CallbackQueue.enqueue callbackWrapper (callbackQueue w)) w)
            else
              (Some (InCallback callbackWrapper), h,
               record [CallbackCalled (cl_callback f) result] w)
          else (None, h, w)
      | Threw => (None, TaskHandle.setState Failed now h, w)
      end
  | InCallback th =>
      match call_thunk th with
      | Returned _ => (None, h, w)
      | Threw => (None, TaskHandle.setState Failed now h, w)
      end
  end.

(** A context runs [fuel] pieces of the body without interruption. *)
Fixpoint wrapper_run (fuel : nat) (f : Closure R) (ph : Phase R) (now : Z)
  (h : TaskHandle) (w : World R) : option (Phase R) * TaskHandle * World R :=
  match fuel with
  | O => (Some ph, h, w)
  | S fuel =>
      match wrapper_step f ph now h w with
      | (Some ph, h, w) => wrapper_run fuel f ph now h w
      | (None, h, w) => (None, h, w)
      end
  end.

End Task.
End Task.

(** ** class Async *)

Module Async.
Section Async.
Context {R : Type}.
Variable tskNO_AFFINITY : Z.

Definition setConfig (config : AsyncConfig) (w : World R) : World R :=
  set_globalConfig config w.

(** [update()]: the thunks [process] called go to the trace. *)
Definition update (acquired : bool) (arrivals : list (list (Thunk R)))
  (w : World R) : Outcome unit * World R :=
  if executeCallbacksInLoop (globalConfig w) then
    let '(done, out, rest) :=
      CallbackQueue.process call_thunk acquired arrivals (callbackQueue w) in
    (out,
     record (map (fun th => CallbackCalled (th_callback th) (th_result th)) done)
       (set_callbackQueue rest w))
  else (Returned (), w).

Definition pendingCallbacks (w : World R) : nat :=
  CallbackQueue.size (callbackQueue w).

(** [Create(func, cb, config)] *)
Definition Create (func : Outcome R) (cb : R -> Outcome unit)
  (config : TaskConfig) : Task R :=
  Task.make func cb config.

(** [Run(func, cb, config)]: the result of [task.run()] is dropped. *)
Definition Run (func : Outcome R) (cb : R -> Outcome unit)
  (config : TaskConfig) (launch : option TaskHandle_t) (now : Z)
  (w : World R) : option (Task R * World R) :=
  '(_, task, w) ← Task.run tskNO_AFFINITY launch now (Task.make func cb config) w;
  Some (task, w).

(** [RunOnCore(core, func, cb)] *)
Definition RunOnCore (core : Z) (func : Outcome R) (cb : R -> Outcome unit)
  : option TaskHandle_t -> Z -> World R -> option (Task R * World R) :=
  let config := TaskConfig_default tskNO_AFFINITY in
  Run func cb
    (mkTaskConfig (stackSize config) (priority config) core (name config)
       (timeoutMs config) (executeInLoop config)).

(** [RunWithPriority(priority, func, cb)] *)
Definition RunWithPriority (priority : N) (func : Outcome R)
  (cb : R -> Outcome unit)
  : option TaskHandle_t -> Z -> World R -> option (Task R * World R) :=
  let config := TaskConfig_default tskNO_AFFINITY in
  Run func cb
    (mkTaskConfig (stackSize config) priority (core config) (name config)
       (timeoutMs config) (executeInLoop config)).

End Async.

(** [RunFireAndForget(func, config)]: [Run] with the callback [[](){}],
    which takes no argument, so the work is [void] work. *)
Definition RunFireAndForget (tskNO_AFFINITY : Z) (func : Outcome unit)
  (config : TaskConfig)
  : option TaskHandle_t -> Z -> World unit -> option (Task unit * World unit) :=
  let noopCallback := fun _ : unit => Returned () in
  Run tskNO_AFFINITY func noopCallback config.
End Async.

(** [executeTask], the overload for [void] work, as it is written: the
    work callable yields nothing and the callback takes no argument. *)
Definition executeTask_void (func : Outcome unit) (callback : Outcome unit)
  (h : TaskHandle) (cfg : TaskConfig) (now : Z) (w : World unit)
  : TaskHandle * World unit :=
  if TaskHandle.isCancelled h then (h, w)
  else
    let w := record [WorkCalled] w in
    match func with
    | Returned _ =>
        if negb (TaskHandle.isCancelled h) then
          let h := TaskHandle.setState Completed now h in
          let callbackWrapper := mkThunk (fun _ : unit => callback) () in
          if executeInLoop cfg then
            (h, set_callbackQueue
                  (CallbackQueue.enqueue callbackWrapper (callbackQueue w)) w)
          else
            let w := record [CallbackCalled (fun _ : unit => callback) ()] w in
            match call_thunk callbackWrapper with
            | Returned _ => (h, w)
            | Threw => (TaskHandle.setState Failed now h, w)
            end
        else (h, w)
    | Threw => (TaskHandle.setState Failed now h, w)
    end.

(** ** One task and the threads around it

    The operations that can touch the shared [TaskHandle] of one task,
    taken one at a time: the owner calls [run] or [cancel], the scheduler
    lets context [k] run one piece of the wrapper body, the control loop
    calls [Async::update].  [OpSetHandle] and [OpSetState] are the two
    [TaskHandle] setters applied directly.

    Each operation is atomic.  For [run] this means that the context it
    creates takes its first step only after [run] has recorded the handle
    with [setHandle]; for the wrapper body the pieces are cut where it
    calls user code, the only places in it where another thread's write
    to the handle can be told apart from one made before or after. *)

Module System.
Section System.
Context {R : Type}.
Variable tskNO_AFFINITY : Z.

Inductive Op :=
  | OpRun (launch : option TaskHandle_t) (now : Z)
  | OpCancel (now : Z)
  | OpWorker (k : TaskHandle_t) (now : Z)
  | OpUpdate (acquired : bool) (arrivals : list (list (Thunk R)))
  | OpSetHandle (handle : option TaskHandle_t) (now : Z)
  | OpSetState (newState : TaskState) (now : Z).

Definition sys : Type := Task R * World R.

(** Context [k], if it is live, runs one piece of the wrapper body on the
    shared handle; at the end of the wrapper it deletes itself. *)
Definition worker (k : TaskHandle_t) (now : Z) (s : sys) : sys :=
  let '(t, w) := s in
  match live w !! k, handle t with
  | Some ctx, Some h =>
      let '(ph, h, w) :=
        Task.wrapper_step (ctx_closure ctx) (ctx_phase ctx) now h w in
      (mkTask (Some h) (config t) (taskFunc t),
       set_live
         match ph with
         | Some ph => <[k := mkContext (ctx_closure ctx) ph]> (live w)
         | None => delete k (live w)
         end w)
  | _, _ => s
  end.

Definition on_handle (f : TaskHandle -> TaskHandle) (s : sys) : sys :=
  let '(t, w) := s in
  (mkTask (f <$> handle t) (config t) (taskFunc t), w).

Definition apply (op : Op) (s : sys) : sys :=
  match op with
  | OpRun launch now =>
      match Task.run tskNO_AFFINITY launch now (fst s) (snd s) with
      | Some (_, t, w) => (t, w)
      | None => s
      end
  | OpCancel now => Task.cancel now (fst s) (snd s)
  | OpWorker k now => worker k now s
  | OpUpdate acquired arrivals =>
      (fst s, snd (Async.update acquired arrivals (snd s)))
  | OpSetHandle handle now => on_handle (TaskHandle.setHandle handle now) s
  | OpSetState newState now => on_handle (TaskHandle.setState newState now) s
  end.

Definition exec (ops : list Op) (s : sys) : sys :=
  fold_left (fun s op => apply op s) ops s.

(** The lifecycle states the task shows: at the start and after each
    operation. *)
Fixpoint states (ops : list Op) (s : sys) : list TaskState :=
  Task.getState (fst s) ::
  match ops with
  | [] => []
  | op :: ops => states ops (apply op s)
  end.

(** Schedules in which the owner calls [run] only on a task that is still
    [Pending], and nothing calls the two setters from outside. *)
Definition permitted (op : Op) (s : sys) : bool :=
  match op with
  | OpRun _ _ => bool_decide (Task.getState (fst s) = Pending)
  | OpSetHandle _ _ | OpSetState _ _ => false
  | OpCancel _ | OpWorker _ _ | OpUpdate _ _ => true
  end.

Fixpoint disciplined (ops : list Op) (s : sys) : bool :=
  match ops with
  | [] => true
  | op :: ops => permitted op s && disciplined ops (apply op s)
  end.

(** Operations that record an execution context in the handle, which is
    what stamps the start time. *)
Definition records_context (op : Op) : bool :=
  match op with
  | OpRun (Some _) _ | OpSetHandle _ _ => true
  | OpRun None _ | OpCancel _ | OpWorker _ _ | OpUpdate _ _
  | OpSetState _ _ => false
  end.


(** Schedules that launch nothing and leave the setters alone. *)
Definition launches_nothing (op : Op) : bool :=
  match op with
  | OpCancel _ | OpWorker _ _ | OpUpdate _ _ => true
  | OpRun _ _ | OpSetHandle _ _ | OpSetState _ _ => false
  end.

(** [run()] on a task with a callable, up to and including a successful
    Launcher call that returned [k]: the task has its name, the request
    is made and the context exists, but line 241, [setHandle], has not
    been reached.  What [run()] does from here is
    [on_handle (TaskHandle.setHandle (Some k) now)]. *)
Definition launch (k : TaskHandle_t) (s : sys) : sys :=
  let '(t, w) := s in
  match taskFunc t with
  | None => s
  | Some f =>
      let '(cfg, w) := Task.named t w in
      let w :=
        record [LauncherCalled
                  (Task.launchCall tskNO_AFFINITY cfg (globalConfig w))] w in
      (mkTask (handle t) cfg (Some f),
       set_live (<[k := mkContext f AtEntry]> (live w)) w)
  end.

End System.
End System.

(** ** Vocabulary of the statements *)

(** The order of the lifecycle: [Pending] before [Running] before the three
    final states, each of which is followed by itself only. *)
Definition forward (s s' : TaskState) : bool :=
  match s, s' with
  | Pending, _ => true
  | Running, (Running | Completed | Failed | Cancelled) => true
  | Completed, Completed | Failed, Failed | Cancelled, Cancelled => true
  | _, _ => false
  end.

Fixpoint forward_chain (l : list TaskState) : bool :=
  match l with
  | s :: (s' :: _) as l => forward s s' && forward_chain l
  | _ => true
  end.

Section Vocabulary.
Context {R : Type}.

Definition is_callback (ev : Event R) : bool :=
  match ev with
  | CallbackCalled _ _ => true
  | WorkCalled | LauncherCalled _ => false
  end.

Definition is_work (ev : Event R) : bool :=
  match ev with
  | WorkCalled => true
  | CallbackCalled _ _ | LauncherCalled _ => false
  end.

(** How often a completion callable was entered, and with what. *)
Definition callbacks (tr : list (Event R)) : list (Event R) :=
  filter (fun ev => is_callback ev = true) tr.

(** How often a work callable was entered. *)
Definition works (tr : list (Event R)) : list (Event R) :=
  filter (fun ev => is_work ev = true) tr.

Definition called (th : Thunk R) : Event R :=
  CallbackCalled (th_callback th) (th_result th).

(** A completion callable that is called on the worker does not throw. *)
Definition inline_safe (f : Closure R) : Prop :=
  executeInLoop (cl_cfg f) = false ->
  forall result, cl_func f = Returned result ->
    cl_callback f result = Returned ().

(** The state a live context finds in the shared handle, by where it
    stands in the body. *)
Definition phase_ok (ph : Phase R) (h : TaskHandle) : Prop :=
  match ph with
  | AtEntry | InWork => state h = Running
  | InCallback th => state h = Completed /\ call_thunk th = Returned ()
  end.

(** What holds of a task that was [run] at most once: a live context was
    made from a closure whose callback is safe to call on the worker, its
    handle is the one recorded in the [TaskHandle], and the state is
    [Running] until the body has set [Completed]. *)
Definition consistent (s : Task R * World R) : Prop :=
  (forall f, taskFunc (fst s) = Some f -> inline_safe f) /\
  exists h, handle (fst s) = Some h /\
    forall k ctx, live (snd s) !! k = Some ctx ->
      inline_safe (ctx_closure ctx) /\
      taskHandle h = Some k /\
      phase_ok (ctx_phase ctx) h.


(** How far into the wrapper body a phase is. *)
Definition phase_rank (ph : Phase R) : nat :=
  match ph with
  | AtEntry => 0
  | InWork => 1
  | InCallback _ => 2
  end.

(** [isRunning()] tells the truth: a task that is [Running] and not
    cancelled has its context alive. *)
Definition truthful (s : Task R * World R) : Prop :=
  forall h, handle (fst s) = Some h ->
    state h = Running -> cancelled h = false ->
    exists k ctx, taskHandle h = Some k /\ live (snd s) !! k = Some ctx.

(** The fields of a Launcher request. *)
Definition call_stackSize (c : LaunchCall) : N :=
  match c with
  | xTaskCreate _ s _ | xTaskCreatePinnedToCore _ s _ _ => s
  end.

Definition call_priority (c : LaunchCall) : N :=
  match c with
  | xTaskCreate _ _ p | xTaskCreatePinnedToCore _ _ p _ => p
  end.

(** The core asked for; [xTaskCreate] leaves the choice to the scheduler,
    which is what [tskNO_AFFINITY] stands for. *)
Definition call_core (tskNO_AFFINITY : Z) (c : LaunchCall) : Z :=
  match c with
  | xTaskCreate _ _ _ => tskNO_AFFINITY
  | xTaskCreatePinnedToCore _ _ _ core => core
  end.

End Vocabulary.

(** The value of [tskNO_AFFINITY] in the ESP-IDF port of FreeRTOS, for the
    worked examples; they do not depend on it. *)
Definition esp32_tskNO_AFFINITY : Z := 2147483647.

(** The configuration [setup()] of the example sketches installs. *)
Definition sketch_config : AsyncConfig :=
  {| defaultStackSize := 8192; defaultPriority := 2; defaultCore := 0;
     maxConcurrentTasks := 5; executeCallbacksInLoop := false |}.

(** * Properties *)

(** ** TaskHandle: cancellation outside [Running], elapsed time *)

Section HandleFacts.
Context {A : Type}.
Implicit Types (h : TaskHandle) (live : gmap TaskHandle_t A).

Lemma cancel_sets_flag now h live :
  cancelled (TaskHandle.cancel now h live).1 = true.
Proof.
  unfold TaskHandle.cancel; simpl.
  destruct (taskHandle h); [case_bool_decide|]; reflexivity.
Qed.

Lemma cancel_not_running now h live :
  state h <> Running ->
  TaskHandle.cancel now h live =
    (mkTaskHandle (taskHandle h) (state h) true (startTime h) (endTime h),
     live).
Proof.
  intros Hs. unfold TaskHandle.cancel; simpl.
  destruct (taskHandle h); [|reflexivity].
  rewrite bool_decide_eq_false_2 by exact Hs. reflexivity.
Qed.

Lemma cancel_running now h live k :
  state h = Running -> taskHandle h = Some k ->
  TaskHandle.cancel now h live =
    (mkTaskHandle None Cancelled true (startTime h) now, delete k live).
Proof.
  intros Hs Hk. unfold TaskHandle.cancel; simpl.
  rewrite Hk, bool_decide_eq_true_2 by exact Hs. reflexivity.
Qed.

Lemma cancel_keeps_startTime now h live :
  startTime (TaskHandle.cancel now h live).1 = startTime h.
Proof.
  unfold TaskHandle.cancel; simpl.
  destruct (taskHandle h); [case_bool_decide|]; reflexivity.
Qed.

End HandleFacts.

(** The unsigned subtraction of two clock readings: the time between
    them, also when the clock has wrapped around once in between. *)
Lemma wrap32_elapsed start now :
  uint32 start -> uint32 now ->
  wrap32 (now - start) =
    if start <=? now then now - start else now - start + 2 ^ 32.
Proof.
  unfold uint32, wrap32. intros Hs Hn.
  destruct (Z.leb_spec start now).
  - apply Z.mod_small. lia.
  - rewrite <- (Z.mod_add _ 1) by lia. apply Z.mod_small. lia.
Qed.

Lemma elapsed_unstamped now h :
  startTime h = 0 -> TaskHandle.getExecutionTime now h = 0.
Proof. intros H. unfold TaskHandle.getExecutionTime. rewrite H. reflexivity. Qed.

Lemma elapsed_running now h :
  startTime h <> 0 -> endTime h = 0 ->
  TaskHandle.getExecutionTime now h = wrap32 (now - startTime h).
Proof.
  intros Hs He. unfold TaskHandle.getExecutionTime.
  rewrite He. destruct (Z.eqb_spec (startTime h) 0); [contradiction|reflexivity].
Qed.

Lemma elapsed_ended now h :
  startTime h <> 0 -> endTime h <> 0 ->
  TaskHandle.getExecutionTime now h = wrap32 (endTime h - startTime h).
Proof.
  intros Hs He. unfold TaskHandle.getExecutionTime.
  destruct (Z.eqb_spec (startTime h) 0); [contradiction|].
  destruct (Z.eqb_spec (endTime h) 0); [contradiction|reflexivity].
Qed.

Section TaskFacts.
Context {R : Type}.
Variable tskNO_AFFINITY : Z.
Implicit Types (t : Task R) (w : World R) (h : TaskHandle) (f : Closure R).

Lemma set_live_same w : set_live (live w) w = w.
Proof. destruct w; reflexivity. Qed.

Lemma wrapper_step_startTime f ph now h w :
  startTime (Task.wrapper_step f ph now h w).1.2 = startTime h.
Proof.
  destruct ph; simpl.
  - destruct (TaskHandle.isCancelled h); reflexivity.
  - destruct (cl_func f); [|reflexivity].
    destruct (TaskHandle.isCancelled h); simpl; [reflexivity|].
    destruct (executeInLoop (cl_cfg f)); reflexivity.
  - destruct (call_thunk th); reflexivity.
Qed.

Lemma apply_keeps_unstamped op (s : Task R * World R) :
  System.records_context op = false ->
  (forall h, handle s.1 = Some h -> startTime h = 0) ->
  forall h, handle (System.apply tskNO_AFFINITY op s).1 = Some h ->
    startTime h = 0.
Proof.
  intros Hop Hs h'. destruct s as [t w]; simpl in Hs.
  destruct op as [launch now|now|k now|acq arr|hd now|st now];
    simpl in Hop; try discriminate; simpl.
  - destruct launch; [discriminate|].
    unfold Task.run, Task.named. destruct (taskFunc t) as [f|]; [|apply Hs].
    destruct (name (config t)); simpl;
      (destruct (handle t) as [h|] eqn:Hh; simpl; [|rewrite Hh; discriminate]);
      intros [= <-]; simpl; auto.
  - unfold Task.cancel. destruct (handle t) as [h|] eqn:Hh; simpl;
      [|rewrite Hh; discriminate].
    destruct (TaskHandle.cancel now h (live w)) as [h1 l] eqn:Hc; simpl.
    intros [= <-]. change h1 with (h1, l).1. rewrite <- Hc.
    rewrite cancel_keeps_startTime. auto.
  - unfold System.worker.
    destruct (live w !! k) as [ctx|]; [|apply Hs].
    destruct (handle t) as [h|] eqn:Hh; [|simpl; rewrite Hh; discriminate].
    pose proof (wrapper_step_startTime (ctx_closure ctx) (ctx_phase ctx) now h w) as E.
    destruct (Task.wrapper_step _ _ _ _ _) as [[ph h1] w1]; simpl in *.
    intros [= <-]. rewrite E. auto.
  - apply Hs.
  - destruct (handle t) as [h|] eqn:Hh; simpl; [|discriminate].
    intros [= <-]. simpl. auto.
Qed.

Lemma exec_keeps_unstamped ops (s : Task R * World R) :
  forallb (fun op => negb (System.records_context op)) ops = true ->
  (forall h, handle s.1 = Some h -> startTime h = 0) ->
  forall h, handle (System.exec tskNO_AFFINITY ops s).1 = Some h ->
    startTime h = 0.
Proof.
  revert s. induction ops as [|op ops IH]; intros s Hops Hs; [exact Hs|].
  simpl in Hops. apply andb_prop in Hops as [Hop Hops].
  apply negb_true_iff in Hop. simpl. apply IH; [exact Hops|].
  apply apply_keeps_unstamped; assumption.
Qed.

End TaskFacts.

(** ** Claims on the handle *)

Section HandleClaims.
Context {R : Type}.
Variable tskNO_AFFINITY : Z.
Implicit Types (t : Task R) (w : World R) (h : TaskHandle).

(** C9, as the code has it.  [cancel()] on a task that holds its
    [TaskHandle] and whose state is not [Running] sets the cancellation
    flag and nothing else: the state, the context handle and both
    timestamps of the shared [TaskHandle] stay as they were, the rest of
    the task and the world are untouched, and afterwards [isCancelled()]
    is true and [isRunning()] is false.  A task that a move has left
    without a [TaskHandle] is outside this statement: [Task::cancel]
    guards on the handle and does nothing for it. *)
Theorem cancel_outside_running_sets_only_flag t h now w :
  handle t = Some h ->
  state h <> Running ->
  handle (Task.cancel now t w).1 =
    Some (mkTaskHandle (taskHandle h) (state h) true (startTime h) (endTime h)) /\
  config (Task.cancel now t w).1 = config t /\
  taskFunc (Task.cancel now t w).1 = taskFunc t /\
  (Task.cancel now t w).2 = w /\
  Task.getState (Task.cancel now t w).1 = state h /\
  Task.isCancelled (Task.cancel now t w).1 = true /\
  Task.isRunning (Task.cancel now t w).1 = false.
Proof.
  intros Hh Hs. unfold Task.cancel. rewrite Hh.
  rewrite (cancel_not_running now h (live w) Hs). simpl.
  rewrite set_live_same. repeat split.
  unfold Task.isRunning, TaskHandle.isRunning; simpl.
  apply andb_false_r.
Qed.

(** C10, as the code has it.  The elapsed time is 0 as long as no
    operation has recorded an execution context, whatever was cancelled
    or failed meanwhile.  A start stamp other than 0 with no end stamp
    gives now minus start, and an end stamp other than 0 on a started
    task gives end minus start, both modulo 2^32.  A stamp that reads 0
    counts as no stamp. *)
Theorem elapsed_time_by_stamps :
  (forall ops (s : Task R * World R) now,
     forallb (fun op => negb (System.records_context op)) ops = true ->
     (forall h, handle s.1 = Some h -> startTime h = 0) ->
     Task.getExecutionTime now (System.exec tskNO_AFFINITY ops s).1 = 0) /\
  (forall h k start now,
     start <> 0 -> endTime h = 0 ->
     TaskHandle.getExecutionTime now (TaskHandle.setHandle k start h) =
       wrap32 (now - start)) /\
  (forall h newState stop now,
     startTime h <> 0 -> stop <> 0 ->
     TaskHandle.is_terminal newState = true ->
     TaskHandle.getExecutionTime now (TaskHandle.setState newState stop h) =
       wrap32 (stop - startTime h)).
Proof.
  split; [|split].
  - intros ops s now Hops Hs. unfold Task.getExecutionTime.
    destruct (handle (System.exec tskNO_AFFINITY ops s).1) as [h|] eqn:Hh;
      [|reflexivity].
    apply elapsed_unstamped.
    exact (exec_keeps_unstamped tskNO_AFFINITY ops s Hops Hs h Hh).
  - intros h k start now Hstart Hend.
    apply elapsed_running; simpl; assumption.
  - intros h newState stop now Hstart Hstop Hterm.
    rewrite elapsed_ended; simpl; rewrite ?Hterm; auto.
Qed.

End HandleClaims.

Lemma cancel_outside_running_sets_only_flag_witness :
  Task.isCancelled
    (Task.cancel 5 (Task.new (R:=Z) esp32_tskNO_AFFINITY)
       (boot esp32_tskNO_AFFINITY)).1 = true /\
  Task.isRunning
    (Task.cancel 5 (Task.new (R:=Z) esp32_tskNO_AFFINITY)
       (boot esp32_tskNO_AFFINITY)).1 = false.
Proof.
  destruct (cancel_outside_running_sets_only_flag
              (Task.new (R:=Z) esp32_tskNO_AFFINITY) TaskHandle.new 5
              (boot esp32_tskNO_AFFINITY) eq_refl)
    as (_ & _ & _ & _ & _ & Hc & Hr); [discriminate|].
  split; assumption.
Defined.

(** A launch failure followed by a cancel leaves the elapsed time at 0; a
    task started at 100 reads 150 at 250 and, once completed at 400, reads
    300 from then on. *)
Lemma elapsed_time_by_stamps_witness :
  Task.getExecutionTime 900
    (System.exec esp32_tskNO_AFFINITY
       [System.OpRun None 40; System.OpCancel 50]
       (Task.make (Returned 7) (fun _ : Z => Returned ())
          (TaskConfig_default esp32_tskNO_AFFINITY),
        boot esp32_tskNO_AFFINITY)).1 = 0 /\
  TaskHandle.getExecutionTime 250
    (TaskHandle.setHandle (Some 1%nat) 100 TaskHandle.new) = 150 /\
  TaskHandle.getExecutionTime 900
    (TaskHandle.setState Completed 400
       (TaskHandle.setHandle (Some 1%nat) 100 TaskHandle.new)) = 300.
Proof.
  destruct (elapsed_time_by_stamps (R:=Z) esp32_tskNO_AFFINITY)
    as (H0 & H1 & H2).
  split; [|split].
  - apply H0; [reflexivity|]. intros h [= <-]. reflexivity.
  - rewrite H1; [reflexivity|discriminate|reflexivity].
  - rewrite H2; [reflexivity|discriminate|discriminate|reflexivity].
Defined.

(** C10 as stated fails when the clock reads 0 at the start: [run()] has
    succeeded, the task is [Running] and has not ended, 5 ms have passed,
    and the elapsed time reported is 0, not now minus start. *)
Lemma started_at_zero_reports_no_time :
  let t :=
    (System.exec esp32_tskNO_AFFINITY [System.OpRun (Some 1%nat) 0]
       (Task.make (Returned 7) (fun _ : Z => Returned ())
          (TaskConfig_default esp32_tskNO_AFFINITY),
        boot esp32_tskNO_AFFINITY)).1 in
  Task.getState t = Running /\
  Task.getExecutionTime 5 t = 0 /\
  Task.getExecutionTime 5 t <> wrap32 (5 - 0).
Proof. repeat split. discriminate. Qed.

(** ** The wrapper body *)

Section BodyFacts.
Context {R : Type}.
Implicit Types (w : World R) (h : TaskHandle) (f : Closure R).

(** Run without interruption, the three pieces are [executeTask]. *)
Lemma executeTask_as_steps func callback h cfg now w fuel :
  Task.wrapper_run (3 + fuel) (mkClosure func callback cfg) AtEntry now h w =
    (None, (Task.executeTask func callback h cfg now w).1,
     (Task.executeTask func callback h cfg now w).2).
Proof.
  unfold Task.executeTask. simpl.
  destruct (TaskHandle.isCancelled h) eqn:Hc; [reflexivity|]. simpl.
  destruct func as [result|]; simpl; [|reflexivity].
  rewrite Hc. simpl.
  destruct (executeInLoop cfg); [reflexivity|]. simpl.
  unfold call_thunk; simpl. destruct (callback result); reflexivity.
Qed.

Lemma callbacks_app (tr1 tr2 : list (Event R)) :
  callbacks (tr1 ++ tr2) = callbacks tr1 ++ callbacks tr2.
Proof. apply filter_app. Qed.

Lemma callbacks_called (ths : list (Thunk R)) :
  callbacks (map called ths) = map called ths.
Proof.
  induction ths as [|th ths IH]; [reflexivity|].
  simpl. unfold callbacks in *. rewrite filter_cons_True by reflexivity.
  f_equal. exact IH.
Qed.

End BodyFacts.

(** X16.  The two overloads of [executeTask] agree: the one for [void]
    work does to the handle and to the world exactly what the one for work
    with a result does at the unit type, with the callback ignoring its
    argument. *)
Lemma executeTask_void_as_unit func callback h cfg now w :
  executeTask_void func callback h cfg now w =
    Task.executeTask func (fun _ => callback) h cfg now w.
Proof.
  unfold executeTask_void, Task.executeTask.
  destruct (TaskHandle.isCancelled h); [reflexivity|].
  destruct func as [[]|]; reflexivity.
Qed.

Section BodyClaims.
Context {R : Type}.
Implicit Types (w : World R) (h : TaskHandle) (f : Closure R).

(** C8.  When the work callable throws, the state becomes [Failed] (and
    the end time is stamped); the trace gains the call of the work
    callable and nothing else, the queue, the live contexts and the
    configuration are as before: no completion thunk is enqueued and none
    is called, so nothing of the failure travels the callback path.  This
    holds for both overloads and, piece by piece, for whatever the
    cancellation flag reads when the work callable throws. *)
Theorem work_failure_fails_without_callback
    (callback : R -> Outcome unit) (callback0 : Outcome unit)
    h cfg now w (w0 : World unit) :
  TaskHandle.isCancelled h = false ->
  (Task.executeTask Threw callback h cfg now w =
     (TaskHandle.setState Failed now h, record [WorkCalled] w) /\
   executeTask_void Threw callback0 h cfg now w0 =
     (TaskHandle.setState Failed now h, record [WorkCalled] w0) /\
   forall f h1 w1, cl_func f = Threw ->
     Task.wrapper_step f InWork now h1 w1 =
       (None, TaskHandle.setState Failed now h1, w1)) /\
  state (TaskHandle.setState Failed now h) = Failed /\
  endTime (TaskHandle.setState Failed now h) = now /\
  callbackQueue (record [WorkCalled] w) = callbackQueue w /\
  callbacks (trace (record [WorkCalled] w)) = callbacks (trace w) /\
  live (record [WorkCalled] w) = live w /\
  globalConfig (record [WorkCalled] w) = globalConfig w.
Proof.
  intros Hc. unfold Task.executeTask, executeTask_void.
  rewrite Hc. repeat split.
  - intros f h1 w1 Hf. simpl. rewrite Hf. reflexivity.
  - simpl. rewrite callbacks_app. simpl. apply app_nil_r.
Qed.

End BodyClaims.

Lemma work_failure_fails_without_callback_witness :
  Task.executeTask Threw (fun _ : Z => Returned ()) TaskHandle.new
    (TaskConfig_default esp32_tskNO_AFFINITY) 9 (boot esp32_tskNO_AFFINITY) =
    (TaskHandle.setState Failed 9 TaskHandle.new,
     record [WorkCalled] (boot esp32_tskNO_AFFINITY)).
Proof.
  apply (work_failure_fails_without_callback (fun _ : Z => Returned ())
           (Returned ()) TaskHandle.new
           (TaskConfig_default esp32_tskNO_AFFINITY) 9
           (boot esp32_tskNO_AFFINITY) (boot esp32_tskNO_AFFINITY)).
  reflexivity.
Defined.

(** ** The callback queue *)

Section QueueFacts.
Context {T : Type} (call : T -> Outcome unit).
Implicit Types (queue done rest : list T) (arrivals : list (list T)).

Lemma enqueue_all_app cs queue :
  CallbackQueue.enqueue_all cs queue = queue ++ cs.
Proof.
  revert queue. induction cs as [|c cs IH]; intros queue; simpl.
  - symmetry. apply app_nil_r.
  - rewrite IH. unfold CallbackQueue.enqueue. rewrite <- app_assoc. reflexivity.
Qed.

(** With nothing arriving, the loop calls the queue front to back and
    stops at the first thunk that throws. *)
Lemma drain_quiet_spec queue done out rest :
  CallbackQueue.drain_quiet call queue = (done, out, rest) ->
  done ++ rest = queue /\ (out = Returned () -> rest = []).
Proof.
  revert done out rest.
  induction queue as [|c queue IH]; intros done out rest; simpl.
  - intros [= <- <- <-]. split; reflexivity.
  - destruct (call c).
    + destruct (CallbackQueue.drain_quiet call queue) as [[d o] r].
      intros [= <- <- <-]. destruct (IH d o r eq_refl) as [E1 E2].
      split; [simpl; rewrite E1; reflexivity|exact E2].
    + intros [= <- <- <-]. split; [reflexivity|discriminate].
Qed.

(** In general, what was called followed by what is left is the queue
    followed by what arrived in the turns the loop took. *)
Lemma drain_spec arrivals queue done out rest :
  CallbackQueue.drain call arrivals queue = (done, out, rest) ->
  (exists n, done ++ rest = queue ++ concat (take n arrivals)) /\
  (out = Returned () -> rest = []).
Proof.
  revert queue done out rest.
  induction arrivals as [|arrived arrivals IH]; intros queue done out rest.
  - simpl. intros H. apply drain_quiet_spec in H as [E1 E2].
    split; [exists 0%nat; simpl; rewrite app_nil_r; exact E1|exact E2].
  - simpl. destruct queue as [|c queue].
    + intros [= <- <- <-]. split; [exists 0%nat|]; reflexivity.
    + destruct (call c).
      * destruct (CallbackQueue.drain call arrivals (queue ++ arrived))
          as [[d o] r] eqn:Hd.
        intros [= <- <- <-]. destruct (IH _ _ _ _ Hd) as [[n E1] E2].
        split; [|exact E2]. exists (S n). simpl.
        rewrite E1, <- app_assoc. reflexivity.
      * intros [= <- <- <-]. split; [|discriminate].
        exists 1%nat. simpl. rewrite ?take_0. simpl.
        rewrite ?app_nil_r. reflexivity.
Qed.

(** A drain whose thunks all return ends normally. *)
Lemma drain_quiet_returns queue :
  Forall (fun c => call c = Returned ()) queue ->
  CallbackQueue.drain_quiet call queue = (queue, Returned (), []).
Proof.
  induction 1 as [|c queue Hc _ IH]; simpl; [reflexivity|].
  rewrite Hc, IH. reflexivity.
Qed.

Lemma drain_quiet_last queue c :
  Forall (fun c => call c = Returned ()) queue ->
  CallbackQueue.drain_quiet call (queue ++ [c]) = (queue ++ [c], call c, []).
Proof.
  induction 1 as [|c0 queue Hc _ IH]; simpl.
  - destruct (call c) as [[]|]; reflexivity.
  - rewrite Hc, IH. reflexivity.
Qed.

(** The loop always ends; when no thunk throws, it ends normally. *)
Lemma drain_returns arrivals queue :
  Forall (fun c => call c = Returned ()) (queue ++ concat arrivals) ->
  exists done, CallbackQueue.drain call arrivals queue = (done, Returned (), []).
Proof.
  revert queue. induction arrivals as [|arrived arrivals IH]; intros queue Hall.
  - simpl in *. rewrite app_nil_r in Hall.
    exists queue. apply drain_quiet_returns. exact Hall.
  - simpl. destruct queue as [|c queue]; [exists []; reflexivity|].
    simpl in Hall. apply Forall_cons in Hall as [Hc Hall].
    rewrite Hc. rewrite app_assoc in Hall.
    destruct (IH _ Hall) as [done Hd]. rewrite Hd.
    exists (c :: done). reflexivity.
Qed.

(** C6.  Thunks are pushed at the back, so a thunk enqueued before
    another one sits before it in the queue.  A [process()] that gets the
    mutex and runs to its end has called every thunk that was in the queue
    when it started, in queue order, then the thunks that arrived while it
    ran, and leaves the queue empty; in particular C1, enqueued before C2,
    is called before C2. *)
Theorem callback_queue_is_fifo queue mid C1 C2 arrivals done rest :
  CallbackQueue.process call true arrivals
    (CallbackQueue.enqueue C2
       (CallbackQueue.enqueue_all mid (CallbackQueue.enqueue C1 queue))) =
    (done, Returned (), rest) ->
  CallbackQueue.enqueue C2
    (CallbackQueue.enqueue_all mid (CallbackQueue.enqueue C1 queue)) =
    queue ++ C1 :: mid ++ [C2] /\
  (exists n, done = (queue ++ C1 :: mid ++ [C2]) ++ concat (take n arrivals)) /\
  (exists later, done = queue ++ C1 :: mid ++ C2 :: later) /\
  rest = [].
Proof.
  assert (CallbackQueue.enqueue C2
            (CallbackQueue.enqueue_all mid (CallbackQueue.enqueue C1 queue)) =
          queue ++ C1 :: mid ++ [C2]) as ->.
  { rewrite enqueue_all_app. unfold CallbackQueue.enqueue.
    rewrite <- !app_assoc. reflexivity. }
  unfold CallbackQueue.process. intros H.
  apply drain_spec in H as [[n E1] E2].
  specialize (E2 eq_refl). subst rest. rewrite app_nil_r in E1.
  split; [reflexivity|]. split; [exists n; exact E1|].
  split; [|reflexivity].
  exists (concat (take n arrivals)). rewrite E1.
  rewrite <- !app_assoc. simpl. rewrite <- !app_assoc. reflexivity.
Qed.

(** A [process()] that does not get the mutex calls nothing and loses
    nothing. *)
Lemma process_without_mutex arrivals queue :
  CallbackQueue.process call false arrivals queue = ([], Returned (), queue).
Proof. reflexivity. Qed.

End QueueFacts.

(** Three thunks enqueued in the order 1, 2, 3; while 1 runs, 4 arrives. *)
Lemma callback_queue_is_fifo_witness :
  CallbackQueue.process (fun _ : nat => Returned ()) true [[4%nat]]
    (CallbackQueue.enqueue 3%nat
       (CallbackQueue.enqueue_all [2%nat] (CallbackQueue.enqueue 1%nat []))) =
    ([1; 2; 3; 4]%nat, Returned (), []) /\
  exists later, [1; 2; 3; 4]%nat = [] ++ 1%nat :: [2%nat] ++ 3%nat :: later.
Proof.
  split; [reflexivity|].
  apply (callback_queue_is_fifo (fun _ : nat => Returned ()) [] [2%nat]
           1%nat 3%nat [[4%nat]] [1; 2; 3; 4]%nat []).
  reflexivity.
Defined.

(** ** Delivery of the completion thunk *)

Section DeliveryFacts.
Context {R : Type}.
Implicit Types (w : World R) (h : TaskHandle) (th : Thunk R).

Lemma update_disabled acquired arrivals w :
  executeCallbacksInLoop (globalConfig w) = false ->
  Async.update acquired arrivals w = (Returned (), w).
Proof. intros Hg. unfold Async.update. rewrite Hg. reflexivity. Qed.

Lemma record_nil w : record [] w = w.
Proof. destruct w; unfold record; simpl. rewrite app_nil_r. reflexivity. Qed.

Lemma set_callbackQueue_same w : set_callbackQueue (callbackQueue w) w = w.
Proof. destruct w; reflexivity. Qed.

Lemma update_without_mutex arrivals w :
  Async.update false arrivals w = (Returned (), w).
Proof.
  unfold Async.update. destruct (executeCallbacksInLoop (globalConfig w));
    [|reflexivity].
  simpl. rewrite set_callbackQueue_same, record_nil. reflexivity.
Qed.

(** An enabled [update()] that gets the mutex, with nothing arriving
    meanwhile and no thunk throwing before the last one: every thunk is
    called, front to back, and the queue is left empty. *)
Lemma update_drains q th w :
  executeCallbacksInLoop (globalConfig w) = true ->
  callbackQueue w = q ++ [th] ->
  Forall (fun th => call_thunk th = Returned ()) q ->
  Async.update true [] w =
    (call_thunk th,
     record (map called q ++ [called th]) (set_callbackQueue [] w)).
Proof.
  intros Hg Hq Hall. unfold Async.update. rewrite Hg, Hq. simpl.
  rewrite (drain_quiet_last call_thunk q th Hall).
  rewrite map_app. reflexivity.
Qed.

Lemma update_empty_queue acquired arrivals w :
  callbackQueue w = [] ->
  Async.update acquired arrivals w = (Returned (), w).
Proof.
  intros Hq. unfold Async.update.
  destruct (executeCallbacksInLoop (globalConfig w)); [|reflexivity].
  rewrite Hq. destruct acquired; simpl.
  - destruct arrivals; simpl; rewrite <- Hq, set_callbackQueue_same, record_nil;
      reflexivity.
  - rewrite <- Hq, set_callbackQueue_same, record_nil. reflexivity.
Qed.

End DeliveryFacts.

Section DeliveryClaims.
Context {R : Type}.
Implicit Types (w : World R) (h : TaskHandle) (th : Thunk R).

(** C4, as the code has it.  When the work callable returns a result and
    the cancellation flag is not set at that moment, the state is set to
    [Completed] and the completion thunk, which holds exactly that result,
    is delivered once, by the path the task's own [executeInLoop] selects.
    If it is false, the callback is called there and then on the worker
    with the result (and if that call throws, the state ends as [Failed]).
    If it is true, the thunk is appended once to the queue and not called;
    an [update()] that drains the queue then calls it once with the
    result, which needs the process-wide [executeCallbacksInLoop]: with
    that flag off no [update()] ever calls it. *)
Theorem normal_return_delivers_result_once
    (callback : R -> Outcome unit) (result : R) h cfg now w :
  TaskHandle.isCancelled h = false ->
  state (TaskHandle.setState Completed now h) = Completed /\
  Task.wrapper_step (mkClosure (Returned result) callback cfg) InWork now h w =
    (if executeInLoop cfg then None
     else Some (InCallback (mkThunk callback result)),
     TaskHandle.setState Completed now h,
     if executeInLoop cfg
     then set_callbackQueue (callbackQueue w ++ [mkThunk callback result]) w
     else record [CallbackCalled callback result] w) /\
  (executeInLoop cfg = false ->
   Task.executeTask (Returned result) callback h cfg now w =
     (match callback result with
      | Returned _ => TaskHandle.setState Completed now h
      | Threw =>
          TaskHandle.setState Failed now (TaskHandle.setState Completed now h)
      end,
      record [CallbackCalled callback result] (record [WorkCalled] w))) /\
  (executeInLoop cfg = true ->
   Task.executeTask (Returned result) callback h cfg now w =
     (TaskHandle.setState Completed now h,
      set_callbackQueue (callbackQueue w ++ [mkThunk callback result])
        (record [WorkCalled] w)) /\
   forall w2,
     callbackQueue w2 = callbackQueue w ++ [mkThunk callback result] ->
     Forall (fun th => call_thunk th = Returned ()) (callbackQueue w) ->
     (executeCallbacksInLoop (globalConfig w2) = true ->
      Async.update true [] w2 =
        (callback result,
         record (map called (callbackQueue w) ++
                 [CallbackCalled callback result])
           (set_callbackQueue [] w2))) /\
     (executeCallbacksInLoop (globalConfig w2) = false ->
      forall acquired arrivals,
        Async.update acquired arrivals w2 = (Returned (), w2))).
Proof.
  intros Hc. split; [reflexivity|]. split; [|split].
  - simpl. rewrite Hc. simpl. destruct (executeInLoop cfg); reflexivity.
  - intros Hl. unfold Task.executeTask. rewrite Hc, Hl. simpl.
    unfold call_thunk. simpl. destruct (callback result); reflexivity.
  - intros Hl. unfold Task.executeTask. rewrite Hc, Hl. simpl.
    split; [reflexivity|].
    intros w2 Hq Hall. split.
    + intros Hg. exact (update_drains _ _ w2 Hg Hq Hall).
    + intros Hg acquired arrivals. apply update_disabled. exact Hg.
Qed.

(** C1, as the code has it.  [update()] does nothing when the process-wide
    [executeCallbacksInLoop] is off, and nothing when [process()] does not
    get the mutex; when the flag is on and the mutex is taken it drains the
    queue.  Which way a completion goes is not decided by that flag: the
    body never reads the process-wide configuration, and for work that
    returns normally with the cancellation flag unset it takes exactly
    one of the two paths by the task's own [executeInLoop], enqueueing
    the thunk without calling it, or calling it on the worker without
    enqueueing it. *)
Theorem delivery_path_is_per_task :
  (forall acquired arrivals w,
     executeCallbacksInLoop (globalConfig w) = false ->
     Async.update acquired arrivals w = (Returned (), w)) /\
  (forall arrivals w, Async.update false arrivals w = (Returned (), w)) /\
  (forall w,
     executeCallbacksInLoop (globalConfig w) = true ->
     Forall (fun th => call_thunk th = Returned ()) (callbackQueue w) ->
     Async.update true [] w =
       (Returned (),
        record (map called (callbackQueue w)) (set_callbackQueue [] w))) /\
  (forall g func callback h cfg now w,
     Task.executeTask func callback h cfg now (set_globalConfig g w) =
       ((Task.executeTask func callback h cfg now w).1,
        set_globalConfig g (Task.executeTask func callback h cfg now w).2)) /\
  (forall result (callback : R -> Outcome unit) h cfg now w,
     TaskHandle.isCancelled h = false ->
     let r := Task.executeTask (Returned result) callback h cfg now w in
     (executeInLoop cfg = true ->
      callbackQueue r.2 = callbackQueue w ++ [mkThunk callback result] /\
      callbacks (trace r.2) = callbacks (trace w)) /\
     (executeInLoop cfg = false ->
      callbackQueue r.2 = callbackQueue w /\
      callbacks (trace r.2) =
        callbacks (trace w) ++ [CallbackCalled callback result])).
Proof.
  split; [exact update_disabled|]. split; [exact update_without_mutex|].
  split; [|split].
  - intros w Hg Hall. unfold Async.update. rewrite Hg. simpl.
    rewrite (drain_quiet_returns call_thunk _ Hall). reflexivity.
  - intros g func callback h cfg now w. unfold Task.executeTask.
    destruct (TaskHandle.isCancelled h); [reflexivity|]. simpl.
    destruct func as [result|]; [|reflexivity].
    destruct (executeInLoop cfg); [reflexivity|].
    unfold call_thunk; simpl. destruct (callback result); reflexivity.
  - intros result callback h cfg now w Hc r. subst r.
    unfold Task.executeTask. rewrite Hc. simpl. split; intros ->; simpl.
    + split; [reflexivity|]. rewrite callbacks_app. simpl. apply app_nil_r.
    + unfold call_thunk; simpl.
      destruct (callback result); simpl;
        (split; [reflexivity|]);
        rewrite <- app_assoc, callbacks_app; reflexivity.
Qed.

End DeliveryClaims.

Lemma normal_return_delivers_result_once_witness :
  Task.wrapper_step
    (mkClosure (Returned 7) (fun _ : Z => Returned ())
       (TaskConfig_default esp32_tskNO_AFFINITY))
    InWork 9 TaskHandle.new (boot esp32_tskNO_AFFINITY) =
    (None, TaskHandle.setState Completed 9 TaskHandle.new,
     set_callbackQueue [mkThunk (fun _ : Z => Returned ()) 7]
       (boot esp32_tskNO_AFFINITY)).
Proof.
  apply (normal_return_delivers_result_once (fun _ : Z => Returned ()) 7
           TaskHandle.new (TaskConfig_default esp32_tskNO_AFFINITY) 9
           (boot esp32_tskNO_AFFINITY)).
  reflexivity.
Defined.

(** C4 as stated fails under the configuration the example sketches
    install, with a task configuration left at its defaults: the work
    returns 7, nothing was cancelled, the state is [Completed], and after
    two [update()] calls that get the mutex the completion callable has
    still not been called; its thunk stays in the queue. *)
Lemma completion_not_called_under_sketch_config :
  let s :=
    System.exec esp32_tskNO_AFFINITY
      [System.OpRun (Some 1%nat) 10; System.OpWorker 1%nat 11;
       System.OpWorker 1%nat 12; System.OpUpdate true [];
       System.OpUpdate true []]
      (Task.make (Returned 7) (fun _ : Z => Returned ())
         (TaskConfig_default esp32_tskNO_AFFINITY),
       Async.setConfig sketch_config (boot esp32_tskNO_AFFINITY)) in
  Task.getState s.1 = Completed /\
  Task.isCancelled s.1 = false /\
  trace s.2 =
    [LauncherCalled (xTaskCreatePinnedToCore (Some "Task_0") 8192 2 0);
     WorkCalled] /\
  callbacks (trace s.2) = [] /\
  Async.pendingCallbacks s.2 = 1%nat.
Proof. repeat split. Qed.

Lemma delivery_path_is_per_task_witness :
  Async.update true []
    (Async.setConfig sketch_config (boot (R:=Z) esp32_tskNO_AFFINITY)) =
    (Returned (), Async.setConfig sketch_config (boot esp32_tskNO_AFFINITY)).
Proof.
  apply (proj1 (delivery_path_is_per_task (R:=Z))). reflexivity.
Defined.

(** C1 as stated fails: in-loop execution is disabled process-wide, the
    task configuration is the default one, the work returns normally, and
    the completion callable was not called on the worker; its thunk was
    enqueued, and [update()] leaves it there. *)
Lemma enqueued_though_loop_execution_is_off :
  let r :=
    Task.executeTask (Returned 7) (fun _ : Z => Returned ()) TaskHandle.new
      (TaskConfig_default esp32_tskNO_AFFINITY) 9
      (Async.setConfig sketch_config (boot esp32_tskNO_AFFINITY)) in
  executeCallbacksInLoop (globalConfig r.2) = false /\
  state r.1 = Completed /\
  callbacks (trace r.2) = [] /\
  callbackQueue r.2 = [mkThunk (fun _ : Z => Returned ()) 7] /\
  Async.update true [] r.2 = (Returned (), r.2).
Proof. repeat split. Qed.

(** ** [run()] *)

Section RunFacts.
Context {R : Type}.
Variable tskNO_AFFINITY : Z.
Implicit Types (t : Task R) (w : World R) (h : TaskHandle) (f : Closure R).

Lemma named_spec t w :
  stackSize (Task.named t w).1 = stackSize (config t) /\
  priority (Task.named t w).1 = priority (config t) /\
  core (Task.named t w).1 = core (config t) /\
  globalConfig (Task.named t w).2 = globalConfig w /\
  callbackQueue (Task.named t w).2 = callbackQueue w /\
  live (Task.named t w).2 = live w /\
  trace (Task.named t w).2 = trace w.
Proof. unfold Task.named. destruct (name (config t)); repeat split. Qed.

Lemma run_unbound launch now t w :
  taskFunc t = None -> Task.run tskNO_AFFINITY launch now t w = Some (false, t, w).
Proof. intros Hf. unfold Task.run. rewrite Hf. reflexivity. Qed.

Lemma run_bound launch now t w f h :
  taskFunc t = Some f -> handle t = Some h ->
  Task.run tskNO_AFFINITY launch now t w =
    let cfg := (Task.named t w).1 in
    let w1 :=
      record [LauncherCalled
                (Task.launchCall tskNO_AFFINITY cfg
                   (globalConfig (Task.named t w).2))]
        (Task.named t w).2 in
    match launch with
    | None =>
        Some (false, mkTask (Some (TaskHandle.setState Failed now h)) cfg (Some f),
              w1)
    | Some k =>
        Some (true,
              mkTask (Some (TaskHandle.setHandle (Some k) now h)) cfg (Some f),
              set_live (<[k := mkContext f AtEntry]> (live w1)) w1)
    end.
Proof.
  intros Hf Hh. unfold Task.run. rewrite Hf, Hh.
  destruct (Task.named t w); destruct launch; reflexivity.
Qed.

Lemma run_null_handle launch now t w f :
  taskFunc t = Some f -> handle t = None ->
  Task.run tskNO_AFFINITY launch now t w = None.
Proof.
  intros Hf Hh. unfold Task.run. rewrite Hf, Hh.
  destruct (Task.named t w); destruct launch; reflexivity.
Qed.

Lemma launchCall_fields cfg g :
  call_stackSize (Task.launchCall tskNO_AFFINITY cfg g) =
    Task.effectiveStackSize cfg g /\
  call_priority (Task.launchCall tskNO_AFFINITY cfg g) =
    Task.effectivePriority cfg g /\
  call_core tskNO_AFFINITY (Task.launchCall tskNO_AFFINITY cfg g) =
    Task.effectiveCore tskNO_AFFINITY cfg g.
Proof.
  unfold Task.launchCall. case_bool_decide as Hc; simpl; repeat split.
  symmetry. destruct (decide (Task.effectiveCore tskNO_AFFINITY cfg g =
                              tskNO_AFFINITY)); [assumption|contradiction].
Qed.

End RunFacts.

Section RunClaims.
Context {R : Type}.
Variable tskNO_AFFINITY : Z.
Implicit Types (t : Task R) (w : World R) (h : TaskHandle) (f : Closure R).

(** C7.  A bound task's [run()] asks the Launcher once, and for each of
    stack size, priority and core the request carries the process-wide
    default when the task's field holds its sentinel (0, 0,
    [tskNO_AFFINITY]) and the task's own value otherwise. *)
Theorem run_resolves_unset_fields_to_defaults t w f h launch now :
  taskFunc t = Some f ->
  handle t = Some h ->
  exists ok t' w' call,
    Task.run tskNO_AFFINITY launch now t w = Some (ok, t', w') /\
    trace w' = trace w ++ [LauncherCalled call] /\
    (stackSize (config t) = 0%N ->
     call_stackSize call = defaultStackSize (globalConfig w)) /\
    (stackSize (config t) <> 0%N ->
     call_stackSize call = stackSize (config t)) /\
    (priority (config t) = 0%N ->
     call_priority call = defaultPriority (globalConfig w)) /\
    (priority (config t) <> 0%N ->
     call_priority call = priority (config t)) /\
    (core (config t) = tskNO_AFFINITY ->
     call_core tskNO_AFFINITY call = defaultCore (globalConfig w)) /\
    (core (config t) <> tskNO_AFFINITY ->
     call_core tskNO_AFFINITY call = core (config t)).
Proof.
  intros Hf Hh.
  pose proof (run_bound tskNO_AFFINITY launch now t w f h Hf Hh) as Hrun.
  destruct (named_spec t w) as (Es & Ep & Ec & Eg & _ & _ & Et).
  destruct (launchCall_fields tskNO_AFFINITY (Task.named t w).1
              (globalConfig (Task.named t w).2)) as (Fs & Fp & Fc).
  set (call := Task.launchCall tskNO_AFFINITY (Task.named t w).1
                 (globalConfig (Task.named t w).2)) in *.
  assert (exists ok t' w',
            Task.run tskNO_AFFINITY launch now t w = Some (ok, t', w') /\
            trace w' = trace w ++ [LauncherCalled call]) as (ok & t' & w' & E & Etr).
  { rewrite Hrun. destruct launch; simpl; eexists _, _, _;
      (split; [reflexivity|]); simpl; rewrite Et; reflexivity. }
  exists ok, t', w', call. split; [exact E|]. split; [exact Etr|].
  rewrite Fs, Fp, Fc.
  unfold Task.effectiveStackSize, Task.effectivePriority, Task.effectiveCore.
  rewrite Es, Ep, Ec, Eg.
  repeat split.
  - intros ->. reflexivity.
  - intros Hne. destruct (N.ltb_spec 0 (stackSize (config t))); [reflexivity|lia].
  - intros ->. reflexivity.
  - intros Hne. destruct (N.ltb_spec 0 (priority (config t))); [reflexivity|lia].
  - intros Heq. rewrite bool_decide_eq_false_2 by (intros Hne; exact (Hne Heq)).
    reflexivity.
  - intros Hne. rewrite bool_decide_eq_true_2 by exact Hne. reflexivity.
Qed.

(** Where nothing is live and nothing is queued, operations that launch
    nothing add nothing to the trace. *)
Lemma idle_world_stays_silent ops (s : Task R * World R) :
  live s.2 = ∅ -> callbackQueue s.2 = [] ->
  forallb System.launches_nothing ops = true ->
  live (System.exec tskNO_AFFINITY ops s).2 = ∅ /\
  callbackQueue (System.exec tskNO_AFFINITY ops s).2 = [] /\
  trace (System.exec tskNO_AFFINITY ops s).2 = trace s.2.
Proof.
  revert s. induction ops as [|op ops IH]; intros s Hl Hq Hops; [auto|].
  simpl in Hops. apply andb_prop in Hops as [Hop Hops]. simpl.
  assert (live (System.apply tskNO_AFFINITY op s).2 = ∅ /\
          callbackQueue (System.apply tskNO_AFFINITY op s).2 = [] /\
          trace (System.apply tskNO_AFFINITY op s).2 = trace s.2)
    as (Hl' & Hq' & Ht').
  { destruct s as [t w]; simpl in Hl, Hq.
    destruct op as [launch now|now|k now|acq arr|hd now|st now];
      simpl in Hop; try discriminate; simpl.
    - unfold Task.cancel. destruct (handle t) as [h|]; [|auto].
      unfold TaskHandle.cancel; simpl. rewrite Hl.
      destruct (taskHandle h); [case_bool_decide|]; simpl;
        rewrite ?delete_empty; auto.
    - unfold System.worker. rewrite Hl, lookup_empty. auto.
    - rewrite (update_empty_queue acq arr w Hq). auto. }
  destruct (IH _ Hl' Hq' Hops) as (A & B & C).
  repeat split; [exact A|exact B|rewrite C; exact Ht'].
Qed.

(** C2, as the code has it.  [run()] returns false in two cases.  With no
    work callable bound it returns at once and changes nothing: the state
    is not set to [Failed].  With a callable bound it returns false when
    the Launcher fails, and then the state is [Failed] with the end time
    stamped.  In both cases no execution context is created, nothing is
    enqueued and no callback is called; from a world with no live context
    and an empty queue no later [cancel()], scheduling or [update()]
    makes a callback happen. *)
Theorem run_failure_forces_failed_only_at_launch launch now t w t' w' :
  Task.run tskNO_AFFINITY launch now t w = Some (false, t', w') ->
  ((taskFunc t = None /\ t' = t /\ w' = w) \/
   (exists f h, taskFunc t = Some f /\ handle t = Some h /\ launch = None /\
      handle t' = Some (TaskHandle.setState Failed now h) /\
      Task.getState t' = Failed)) /\
  live w' = live w /\
  callbackQueue w' = callbackQueue w /\
  callbacks (trace w') = callbacks (trace w) /\
  (live w = ∅ -> callbackQueue w = [] ->
   forall ops, forallb System.launches_nothing ops = true ->
     callbacks (trace (System.exec tskNO_AFFINITY ops (t', w')).2) =
       callbacks (trace w)).
Proof.
  intros Hrun.
  assert (((taskFunc t = None /\ t' = t /\ w' = w) \/
           (exists f h, taskFunc t = Some f /\ handle t = Some h /\
              launch = None /\
              handle t' = Some (TaskHandle.setState Failed now h) /\
              Task.getState t' = Failed)) /\
          live w' = live w /\ callbackQueue w' = callbackQueue w /\
          callbacks (trace w') = callbacks (trace w)) as (Hcase & Hl & Hq & Ht).
  { destruct (taskFunc t) as [f|] eqn:Hf.
    - destruct (handle t) as [h|] eqn:Hh.
      + rewrite (run_bound tskNO_AFFINITY launch now t w f h Hf Hh) in Hrun.
        destruct launch as [k|]; simpl in Hrun; [discriminate|].
        injection Hrun as <- <-.
        destruct (named_spec t w) as (_ & _ & _ & _ & Eq & El & Et).
        split; [right; exists f, h; repeat split|].
        simpl. rewrite El, Eq, Et, callbacks_app. simpl.
        rewrite app_nil_r. repeat split.
      + rewrite (run_null_handle tskNO_AFFINITY launch now t w f Hf Hh) in Hrun.
        discriminate.
    - rewrite (run_unbound tskNO_AFFINITY launch now t w Hf) in Hrun.
      injection Hrun as <- <-. split; [left|]; repeat split. }
  repeat split; try assumption.
  intros Hl0 Hq0 ops Hops.
  destruct (idle_world_stays_silent ops (t', w')) as (_ & _ & E);
    [simpl; congruence|simpl; congruence|exact Hops|].
  rewrite E. exact Ht.
Qed.

End RunClaims.

(** The task of the second sketch: stack 2048, priority 1, core 1, under
    the defaults 8192, 2, core 0. *)
Lemma run_resolves_unset_fields_to_defaults_witness :
  exists ok t' w' call,
    Task.run esp32_tskNO_AFFINITY (Some 1%nat) 10
      (Task.make (Returned 7) (fun _ : Z => Returned ())
         (mkTaskConfig 2048 1 1 (Some "EndlessTask") 2000 true))
      (Async.setConfig sketch_config (boot esp32_tskNO_AFFINITY)) =
      Some (ok, t', w') /\
    call_stackSize call = 2048%N /\ call_priority call = 1%N /\
    call_core esp32_tskNO_AFFINITY call = 1.
Proof.
  destruct (run_resolves_unset_fields_to_defaults esp32_tskNO_AFFINITY
              (Task.make (Returned 7) (fun _ : Z => Returned ())
                 (mkTaskConfig 2048 1 1 (Some "EndlessTask") 2000 true))
              (Async.setConfig sketch_config (boot esp32_tskNO_AFFINITY))
              (mkClosure (Returned 7) (fun _ : Z => Returned ())
                 (mkTaskConfig 2048 1 1 (Some "EndlessTask") 2000 true))
              TaskHandle.new (Some 1%nat) 10 eq_refl eq_refl)
    as (ok & t' & w' & call & E & _ & _ & Hs & _ & Hp & _ & Hc).
  exists ok, t', w', call. split; [exact E|].
  split; [apply Hs; discriminate|].
  split; [apply Hp; discriminate|apply Hc; discriminate].
Defined.

Lemma run_failure_forces_failed_only_at_launch_witness :
  exists t' w',
    Task.run esp32_tskNO_AFFINITY None 10
      (Task.make (Returned 7) (fun _ : Z => Returned ())
         (TaskConfig_default esp32_tskNO_AFFINITY))
      (boot esp32_tskNO_AFFINITY) = Some (false, t', w') /\
    Task.getState t' = Failed /\ live w' = ∅ /\ callbackQueue w' = [].
Proof.
  eexists _, _. split; [reflexivity|].
  destruct (run_failure_forces_failed_only_at_launch esp32_tskNO_AFFINITY
              None 10
              (Task.make (Returned 7) (fun _ : Z => Returned ())
                 (TaskConfig_default esp32_tskNO_AFFINITY))
              (boot esp32_tskNO_AFFINITY) _ _ eq_refl)
    as ([(Hf & _) | (f & h & _ & _ & _ & _ & Hs)] & Hl & Hq & _).
  - discriminate Hf.
  - split; [exact Hs|]. split; [exact Hl|exact Hq].
Defined.

(** C2 as stated fails for a task with no work callable, such as the
    default-constructed [Task drawTask;] of the sketch: [run()] returns
    false and the state is still [Pending]. *)
Lemma unbound_run_fails_and_stays_pending :
  exists t' w',
    Task.run esp32_tskNO_AFFINITY (Some 1%nat) 10
      (Task.new (R:=Z) esp32_tskNO_AFFINITY) (boot esp32_tskNO_AFFINITY) =
      Some (false, t', w') /\
    Task.getState t' = Pending /\ Task.getState t' <> Failed.
Proof. eexists _, _. repeat split. discriminate. Qed.

(** ** The lifecycle *)

Lemma forward_refl s : forward s s = true.
Proof. destruct s; reflexivity. Qed.

Lemma forward_trans s1 s2 s3 :
  forward s1 s2 = true -> forward s2 s3 = true -> forward s1 s3 = true.
Proof. destruct s1, s2, s3; simpl; congruence. Qed.

(** In a forward chain every state is forward of every earlier one. *)
Lemma forward_chain_pairwise l :
  forward_chain l = true ->
  forall i j si sj, (i <= j)%nat ->
    l !! i = Some si -> l !! j = Some sj -> forward si sj = true.
Proof.
  induction l as [|s l IH]; intros Hl i j si sj Hij Hi Hj; [discriminate|].
  assert (forward_chain l = true) as Hl'.
  { destruct l; [reflexivity|]. simpl in Hl.
    apply andb_prop in Hl as [_ Hl]. exact Hl. }
  assert (forall j sj, l !! j = Some sj -> forward s sj = true) as Hhead.
  { clear i j si sj Hij Hi Hj. intros j sj Hj.
    destruct l as [|s' l]; [discriminate|].
    simpl in Hl. apply andb_prop in Hl as [Hs _].
    apply (forward_trans _ s'); [exact Hs|].
    apply (IH Hl' 0%nat j s' sj); [lia|reflexivity|exact Hj]. }
  destruct i as [|i]; simpl in Hi.
  - injection Hi as <-. destruct j as [|j]; simpl in Hj.
    + injection Hj as <-. apply forward_refl.
    + exact (Hhead j sj Hj).
  - destruct j as [|j]; [lia|]. simpl in Hj.
    apply (IH Hl' i j); [lia|exact Hi|exact Hj].
Qed.

Section LifecycleFacts.
Context {R : Type}.
Variable tskNO_AFFINITY : Z.
Implicit Types (t : Task R) (w : World R) (h : TaskHandle) (f : Closure R).

(** One piece of the body, from a state that fits the phase: the context
    handle is kept, the Launcher's map is not touched, the state moves
    forward, and the state fits the next phase. *)
Lemma wrapper_step_forward f ph now h w :
  inline_safe f -> phase_ok ph h ->
  taskHandle (Task.wrapper_step f ph now h w).1.2 = taskHandle h /\
  live (Task.wrapper_step f ph now h w).2 = live w /\
  forward (state h) (state (Task.wrapper_step f ph now h w).1.2) = true /\
  forall ph', (Task.wrapper_step f ph now h w).1.1 = Some ph' ->
    phase_ok ph' (Task.wrapper_step f ph now h w).1.2.
Proof.
  intros Hsafe Hph. destruct ph as [| |th]; simpl in *.
  - destruct (TaskHandle.isCancelled h); simpl; rewrite Hph;
      repeat split; try discriminate.
    intros ph' [= <-]. exact Hph.
  - destruct (cl_func f) as [result|] eqn:Hf; simpl.
    + destruct (TaskHandle.isCancelled h); simpl.
      * rewrite Hph. repeat split. discriminate.
      * destruct (executeInLoop (cl_cfg f)) eqn:Hl; simpl; rewrite Hph;
          repeat split; try discriminate.
        intros ph' [= <-]. simpl. split; [reflexivity|].
        unfold call_thunk; simpl. exact (Hsafe Hl result Hf).
    + rewrite Hph. repeat split. discriminate.
  - destruct Hph as [Hs Hth]. rewrite Hth. simpl. rewrite Hs.
    repeat split. discriminate.
Qed.

Lemma update_keeps_live acquired arrivals w :
  live (Async.update acquired arrivals w).2 = live w.
Proof.
  unfold Async.update.
  destruct (executeCallbacksInLoop (globalConfig w)); [|reflexivity].
  destruct (CallbackQueue.process _ _ _ _) as [[done out] rest]. reflexivity.
Qed.

(** A permitted operation keeps the invariant and moves the state
    forward. *)
Lemma apply_forward op (s : Task R * World R) :
  consistent s -> System.permitted op s = true ->
  consistent (System.apply tskNO_AFFINITY op s) /\
  forward (Task.getState s.1)
    (Task.getState (System.apply tskNO_AFFINITY op s).1) = true.
Proof.
  destruct s as [t w]. intros (Hsafe & h & Hh & Hlive) Hop.
  simpl in Hsafe, Hh, Hlive.
  assert (forall k ctx k' ctx',
            live w !! k = Some ctx -> live w !! k' = Some ctx' -> k' = k)
    as Huniq.
  { intros k ctx k' ctx' Hk Hk'.
    destruct (Hlive k ctx Hk) as (_ & E & _).
    destruct (Hlive k' ctx' Hk') as (_ & E' & _). congruence. }
  unfold Task.getState at 1. simpl. rewrite Hh. unfold TaskHandle.getState.
  destruct op as [launch now|now|k now|acq arr|hd now|st now];
    simpl in Hop; try discriminate; simpl.
  - (* run, on a Pending task *)
    apply bool_decide_eq_true_1 in Hop.
    unfold Task.getState in Hop. simpl in Hop. rewrite Hh in Hop.
    unfold TaskHandle.getState in Hop.
    assert (forall k, live w !! k = None) as Hnone.
    { intros k. destruct (live w !! k) as [ctx|] eqn:Hk; [|reflexivity].
      destruct (Hlive k ctx Hk) as (_ & _ & Hph).
      destruct (ctx_phase ctx); simpl in Hph; [congruence|congruence|].
      destruct Hph; congruence. }
    assert ((exists f, taskFunc t = Some f) \/ taskFunc t = None)
      as [[f Hf]|Hf] by (destruct (taskFunc t); eauto).
    + rewrite (run_bound tskNO_AFFINITY launch now t w f h Hf Hh).
      destruct (named_spec t w) as (_ & _ & _ & _ & _ & El & _).
      destruct launch as [k|]; simpl.
      * split; [|rewrite Hop; reflexivity].
        split; [simpl; intros f' [= <-]; apply Hsafe; exact Hf|].
        eexists; split; [reflexivity|]. simpl. intros k' ctx'.
        rewrite El. destruct (decide (k = k')) as [<-|Hne].
        -- rewrite lookup_insert_eq. intros [= <-]. simpl.
           repeat split. apply Hsafe. exact Hf.
        -- rewrite lookup_insert_ne by exact Hne. rewrite Hnone. discriminate.
      * split; [|rewrite Hop; reflexivity].
        split; [simpl; intros f' [= <-]; apply Hsafe; exact Hf|].
        eexists; split; [reflexivity|]. simpl. intros k' ctx'.
        rewrite El, Hnone. discriminate.
    + rewrite (run_unbound tskNO_AFFINITY launch now t w Hf). simpl.
      unfold Task.getState; rewrite Hh. split; [|apply forward_refl].
      split; [exact Hsafe|]. exists h. split; [exact Hh|exact Hlive].
  - (* cancel *)
    unfold Task.cancel. rewrite Hh.
    destruct (decide (state h = Running)) as [Hr|Hr].
    + destruct (taskHandle h) as [k|] eqn:Hk.
      * rewrite (cancel_running now h (live w) k Hr Hk). simpl.
        split; [|rewrite Hr; reflexivity].
        split; [exact Hsafe|]. eexists; split; [reflexivity|]. simpl.
        intros k' ctx' Hk'. exfalso.
        destruct (decide (k = k')) as [<-|Hne].
        -- rewrite lookup_delete_eq in Hk'. discriminate.
        -- rewrite lookup_delete_ne in Hk' by exact Hne.
           destruct (Hlive k' ctx' Hk') as (_ & E & _). congruence.
      * unfold TaskHandle.cancel. simpl. rewrite Hk. simpl.
        split; [|apply forward_refl].
        split; [exact Hsafe|]. eexists; split; [reflexivity|]. simpl.
        intros k' ctx' Hk'.
        destruct (Hlive k' ctx' Hk') as (_ & E & _). congruence.
    + rewrite (cancel_not_running now h (live w) Hr). simpl.
      split; [|apply forward_refl].
      split; [exact Hsafe|]. eexists; split; [reflexivity|]. simpl.
      intros k' ctx' Hk'. destruct (Hlive k' ctx' Hk') as (A & B & C).
      repeat split; [exact A|exact B|].
      destruct (ctx_phase ctx'); exact C.
  - (* a context runs one piece of the body *)
    unfold System.worker.
    destruct (live w !! k) as [ctx|] eqn:Hk.
    2:{ simpl. unfold Task.getState; rewrite Hh. split; [|apply forward_refl].
        split; [exact Hsafe|]. exists h. split; [exact Hh|exact Hlive]. }
    rewrite Hh. destruct (Hlive k ctx Hk) as (Hcs & Hkh & Hph).
    destruct (wrapper_step_forward (ctx_closure ctx) (ctx_phase ctx) now h w
                Hcs Hph) as (Eh & El & Ef & Enext).
    destruct (Task.wrapper_step (ctx_closure ctx) (ctx_phase ctx) now h w)
      as [[ph' h'] w']. simpl in Eh, El, Ef, Enext. simpl.
    split; [|exact Ef].
    split; [exact Hsafe|]. eexists; split; [reflexivity|]. simpl.
    intros k' ctx'. rewrite El. destruct ph' as [ph'|].
    + destruct (decide (k = k')) as [<-|Hne].
      * rewrite lookup_insert_eq. intros [= <-]. simpl.
        repeat split; [exact Hcs|congruence|apply Enext; reflexivity].
      * rewrite lookup_insert_ne by exact Hne. intros Hk'.
        exfalso. apply Hne. symmetry. exact (Huniq _ _ _ _ Hk Hk').
    + destruct (decide (k = k')) as [<-|Hne].
      * rewrite lookup_delete_eq. discriminate.
      * rewrite lookup_delete_ne by exact Hne. intros Hk'.
        exfalso. apply Hne. symmetry. exact (Huniq _ _ _ _ Hk Hk').
  - (* update *)
    unfold Task.getState; rewrite Hh. split; [|apply forward_refl].
    split; [exact Hsafe|]. exists h. split; [exact Hh|].
    intros k' ctx'. simpl. rewrite update_keeps_live. apply Hlive.
Qed.

Lemma disciplined_forward_chain ops (s : Task R * World R) :
  consistent s -> System.disciplined tskNO_AFFINITY ops s = true ->
  forward_chain (System.states tskNO_AFFINITY ops s) = true.
Proof.
  revert s. induction ops as [|op ops IH]; intros s Hs Hops; [reflexivity|].
  simpl in Hops. apply andb_prop in Hops as [Hop Hops].
  destruct (apply_forward op s Hs Hop) as [Hs' Hf].
  specialize (IH _ Hs' Hops).
  simpl. destruct ops as [|op' ops]; simpl in *;
    rewrite Hf; [reflexivity|exact IH].
Qed.

End LifecycleFacts.

Section LifecycleClaims.
Context {R : Type}.
Variable tskNO_AFFINITY : Z.
Implicit Types (t : Task R) (w : World R) (h : TaskHandle).

(** C3, as the code has it.  Take a task that holds its [TaskHandle], with
    no execution context live yet, whose completion callable does not
    throw when it is called on the worker.  Under any schedule of
    [cancel()], pieces of the wrapper body, [update()] and [run()], in
    which [run()] is called only while the state is [Pending] and the two
    setters are reached only through these operations, the states the
    task shows move forward only: each is forward of every earlier one,
    so [Pending] and [Running] are not seen again once left and
    [Completed], [Failed] and [Cancelled] are final. *)
Theorem lifecycle_forward_when_run_while_pending ops t h w :
  handle t = Some h ->
  live w = ∅ ->
  (forall f, taskFunc t = Some f -> inline_safe f) ->
  System.disciplined tskNO_AFFINITY ops (t, w) = true ->
  forward_chain (System.states tskNO_AFFINITY ops (t, w)) = true /\
  forall i j si sj, (i <= j)%nat ->
    System.states tskNO_AFFINITY ops (t, w) !! i = Some si ->
    System.states tskNO_AFFINITY ops (t, w) !! j = Some sj ->
    forward si sj = true.
Proof.
  intros Hh Hl Hsafe Hops.
  assert (forward_chain (System.states tskNO_AFFINITY ops (t, w)) = true)
    as Hchain.
  { apply disciplined_forward_chain; [|exact Hops].
    split; [exact Hsafe|]. exists h. split; [exact Hh|].
    simpl. intros k ctx. rewrite Hl, lookup_empty. discriminate. }
  split; [exact Hchain|].
  exact (forward_chain_pairwise _ Hchain).
Qed.

End LifecycleClaims.

(** A task is started, begins its work, is cancelled while [Running] and
    is then scheduled and drained to no effect. *)
Lemma lifecycle_forward_when_run_while_pending_witness :
  System.states esp32_tskNO_AFFINITY
    [System.OpRun (Some 1%nat) 10; System.OpWorker 1%nat 11;
     System.OpCancel 12; System.OpWorker 1%nat 13; System.OpUpdate true []]
    (Task.make (Returned 7) (fun _ : Z => Returned ())
       (TaskConfig_default esp32_tskNO_AFFINITY),
     boot esp32_tskNO_AFFINITY) =
    [Pending; Running; Running; Cancelled; Cancelled; Cancelled] /\
  forward_chain
    (System.states esp32_tskNO_AFFINITY
       [System.OpRun (Some 1%nat) 10; System.OpWorker 1%nat 11;
        System.OpCancel 12; System.OpWorker 1%nat 13; System.OpUpdate true []]
       (Task.make (Returned 7) (fun _ : Z => Returned ())
          (TaskConfig_default esp32_tskNO_AFFINITY),
        boot esp32_tskNO_AFFINITY)) = true.
Proof.
  split; [reflexivity|].
  apply (lifecycle_forward_when_run_while_pending esp32_tskNO_AFFINITY
           [System.OpRun (Some 1%nat) 10; System.OpWorker 1%nat 11;
            System.OpCancel 12; System.OpWorker 1%nat 13;
            System.OpUpdate true []]
           (Task.make (Returned 7) (fun _ : Z => Returned ())
              (TaskConfig_default esp32_tskNO_AFFINITY))
           TaskHandle.new (boot esp32_tskNO_AFFINITY)).
  - reflexivity.
  - reflexivity.
  - intros f [= <-] Hl. discriminate Hl.
  - reflexivity.
Defined.

(** C3 as stated fails: [run()] does not look at the state, so a second
    [run()] on a task that has completed takes it back to [Running]. *)
Lemma second_run_leaves_completed :
  System.states esp32_tskNO_AFFINITY
    [System.OpRun (Some 1%nat) 10; System.OpWorker 1%nat 11;
     System.OpWorker 1%nat 12; System.OpRun (Some 2%nat) 13]
    (Task.make (Returned 7) (fun _ : Z => Returned ())
       (TaskConfig_default esp32_tskNO_AFFINITY),
     boot esp32_tskNO_AFFINITY) =
    [Pending; Running; Running; Completed; Running] /\
  forward Completed Running = false /\
  forward_chain [Pending; Running; Running; Completed; Running] = false.
Proof. repeat split. Qed.

(** Why the callback must not throw on the worker: with [executeInLoop]
    false the callback is called inside the [try] block after the state
    was set to [Completed], and the handler then sets [Failed]. *)
Lemma inline_throw_leaves_completed :
  System.states esp32_tskNO_AFFINITY
    [System.OpRun (Some 1%nat) 10; System.OpWorker 1%nat 11;
     System.OpWorker 1%nat 12; System.OpWorker 1%nat 13]
    (Task.make (Returned 7) (fun _ : Z => Threw)
       (mkTaskConfig 0 0 esp32_tskNO_AFFINITY None 0 false),
     boot esp32_tskNO_AFFINITY) =
    [Pending; Running; Running; Completed; Failed].
Proof. reflexivity. Qed.

(** ** Cancellation before the work *)

Section CancelledFacts.
Context {R : Type}.
Variable tskNO_AFFINITY : Z.
Implicit Types (t : Task R) (w : World R) (h : TaskHandle).

Lemma works_app (tr1 tr2 : list (Event R)) :
  works (tr1 ++ tr2) = works tr1 ++ works tr2.
Proof. apply filter_app. Qed.






End CancelledFacts.


(** C9 as stated fails for what a move leaves behind.  That task has no
    [TaskHandle]: it is not [Running], [getState()] reports the final
    state [Failed], and [cancel()] on it sets no flag, so [isCancelled()]
    is false afterwards. *)
Lemma cancel_on_moved_from_task :
  let moved_from :=
    (Task.move
       (Task.make (Returned 7) (fun _ : Z => Returned ())
          (TaskConfig_default esp32_tskNO_AFFINITY))).2 in
  Task.getState moved_from = Failed /\
  Task.getState moved_from <> Running /\
  Task.cancel 5 moved_from (boot esp32_tskNO_AFFINITY) =
    (moved_from, boot esp32_tskNO_AFFINITY) /\
  Task.isCancelled
    (Task.cancel 5 moved_from (boot esp32_tskNO_AFFINITY)).1 = false /\
  Task.isCancelled
    (Task.cancel 5 moved_from (boot esp32_tskNO_AFFINITY)).1 <> true.
Proof. repeat split; discriminate. Qed.

(** * Further properties of the code *)

(** ** Cancellation *)

Section CancelMore.
Context {R : Type}.
Variable tskNO_AFFINITY : Z.
Implicit Types (t : Task R) (w : World R) (h : TaskHandle).

Lemma wrapper_step_keeps_flag (f : Closure R) ph now h w :
  cancelled (Task.wrapper_step f ph now h w).1.2 = cancelled h /\
  taskHandle (Task.wrapper_step f ph now h w).1.2 = taskHandle h.
Proof.
  destruct ph; simpl.
  - destruct (TaskHandle.isCancelled h); split; reflexivity.
  - destruct (cl_func f); [|split; reflexivity].
    destruct (TaskHandle.isCancelled h); simpl; [split; reflexivity|].
    destruct (executeInLoop (cl_cfg f)); split; reflexivity.
  - destruct (call_thunk th); split; reflexivity.
Qed.

(** X1.  [cancel()] on a task that is [Running] with a recorded context:
    the state becomes [Cancelled], the end time is the time of the call,
    the handle is cleared, and the Launcher has deleted exactly that
    context, which therefore never takes another step; the queue, the
    trace and every other context are untouched. *)
Theorem cancel_running_kills_the_context t h k now w :
  handle t = Some h ->
  state h = Running ->
  taskHandle h = Some k ->
  handle (Task.cancel now t w).1 =
    Some (mkTaskHandle None Cancelled true (startTime h) now) /\
  Task.getState (Task.cancel now t w).1 = Cancelled /\
  Task.isRunning (Task.cancel now t w).1 = false /\
  live (Task.cancel now t w).2 !! k = None /\
  (forall k', k' <> k ->
     live (Task.cancel now t w).2 !! k' = live w !! k') /\
  callbackQueue (Task.cancel now t w).2 = callbackQueue w /\
  trace (Task.cancel now t w).2 = trace w /\
  forall now', System.worker k now' (Task.cancel now t w) =
    Task.cancel now t w.
Proof.
  intros Hh Hs Hk. unfold Task.cancel. rewrite Hh.
  rewrite (cancel_running now h (live w) k Hs Hk). simpl.
  split; [reflexivity|]. split; [reflexivity|]. split; [reflexivity|].
  split; [apply lookup_delete_eq|].
  split; [intros k' Hne; apply lookup_delete_ne; congruence|].
  split; [reflexivity|]. split; [reflexivity|].
  intros now'. unfold System.worker. simpl.
  rewrite lookup_delete_eq. reflexivity.
Qed.

(** X2.  A second [cancel()] changes nothing, whenever it comes. *)
Theorem cancel_twice_is_cancel_once now now' t w :
  Task.cancel now' (Task.cancel now t w).1 (Task.cancel now t w).2 =
    Task.cancel now t w.
Proof.
  unfold Task.cancel. destruct (handle t) as [h|] eqn:Hh; simpl.
  2:{ rewrite Hh. reflexivity. }
  unfold TaskHandle.cancel. destruct h as [th st c s e]. simpl.
  destruct th as [k|]; simpl; [|reflexivity].
  destruct (bool_decide (st = Running)) eqn:Hs; simpl; rewrite ?Hs;
    reflexivity.
Qed.

Lemma apply_keeps_flag op (s : Task R * World R) :
  Task.isCancelled s.1 = true ->
  Task.isCancelled (System.apply tskNO_AFFINITY op s).1 = true.
Proof.
  destruct s as [t w]. simpl. intros Hc.
  unfold Task.isCancelled in Hc.
  destruct (handle t) as [h|] eqn:Hh; [|discriminate].
  unfold TaskHandle.isCancelled in Hc.
  destruct op as [launch now|now|k now|acq arr|hd now|st now]; simpl.
  - assert ((exists f, taskFunc t = Some f) \/ taskFunc t = None)
      as [[f Hf]|Hf] by (destruct (taskFunc t); eauto).
    + rewrite (run_bound tskNO_AFFINITY launch now t w f h Hf Hh).
      destruct launch; simpl; exact Hc.
    + rewrite (run_unbound tskNO_AFFINITY launch now t w Hf). simpl.
      unfold Task.isCancelled. rewrite Hh. exact Hc.
  - unfold Task.cancel. rewrite Hh.
    pose proof (cancel_sets_flag now h (live w)) as Hflag.
    destruct (TaskHandle.cancel now h (live w)) as [h' l']. exact Hflag.
  - unfold System.worker. destruct (live w !! k) as [ctx|].
    2:{ simpl. unfold Task.isCancelled. rewrite Hh. exact Hc. }
    rewrite Hh.
    destruct (wrapper_step_keeps_flag (ctx_closure ctx) (ctx_phase ctx)
                now h w) as [E _].
    destruct (Task.wrapper_step _ _ _ _ _) as [[ph h'] w']. simpl in *.
    unfold Task.isCancelled, TaskHandle.isCancelled. simpl. congruence.
  - unfold Task.isCancelled. rewrite Hh. exact Hc.
  - unfold System.on_handle, Task.isCancelled. simpl. rewrite Hh. exact Hc.
  - unfold System.on_handle, Task.isCancelled. simpl. rewrite Hh. exact Hc.
Qed.

(** X3.  Nothing takes a cancellation back.  Once [isCancelled()] is true
    it stays true under every sequence of [run()], [cancel()], steps of
    the wrapper body, [update()] and the two setters, and [isRunning()]
    is false from then on, whatever the state. *)
Theorem cancellation_is_never_taken_back ops (s : Task R * World R) :
  Task.isCancelled s.1 = true ->
  Task.isCancelled (System.exec tskNO_AFFINITY ops s).1 = true /\
  Task.isRunning (System.exec tskNO_AFFINITY ops s).1 = false.
Proof.
  intros Hc.
  assert (Task.isCancelled (System.exec tskNO_AFFINITY ops s).1 = true) as H.
  { revert s Hc. induction ops as [|op ops IH]; intros s Hc; [exact Hc|].
    simpl. apply IH. apply apply_keeps_flag. exact Hc. }
  split; [exact H|].
  unfold Task.isCancelled, Task.isRunning in *.
  destruct (handle (System.exec tskNO_AFFINITY ops s).1) as [h|];
    [|reflexivity].
  unfold TaskHandle.isCancelled, TaskHandle.isRunning in *.
  rewrite H. apply andb_false_r.
Qed.

End CancelMore.

(** A task at work on context 1 is cancelled at 40. *)
Lemma cancel_running_kills_the_context_witness :
  Task.getState
    (Task.cancel 40
       (mkTask (Some (mkTaskHandle (Some 1%nat) Running false 10 0))
          (TaskConfig_default esp32_tskNO_AFFINITY)
          (Some (mkClosure (Returned 7) (fun _ : Z => Returned ())
                   (TaskConfig_default esp32_tskNO_AFFINITY))))
       (set_live
          {[1%nat := mkContext
                       (mkClosure (Returned 7) (fun _ : Z => Returned ())
                          (TaskConfig_default esp32_tskNO_AFFINITY))
                       InWork]}
          (boot esp32_tskNO_AFFINITY))).1 = Cancelled.
Proof.
  apply (cancel_running_kills_the_context
           (mkTask (Some (mkTaskHandle (Some 1%nat) Running false 10 0))
              (TaskConfig_default esp32_tskNO_AFFINITY)
              (Some (mkClosure (Returned 7) (fun _ : Z => Returned ())
                       (TaskConfig_default esp32_tskNO_AFFINITY))))
           (mkTaskHandle (Some 1%nat) Running false 10 0) 1%nat 40);
    reflexivity.
Defined.

(** Cancelled while [Pending]; then started, scheduled, completed by hand
    and started again. *)
Lemma cancellation_is_never_taken_back_witness :
  Task.isCancelled
    (System.exec esp32_tskNO_AFFINITY
       [System.OpRun (Some 1%nat) 10; System.OpWorker 1%nat 11;
        System.OpSetState Pending 12; System.OpSetHandle (Some 2%nat) 13]
       (Task.cancel 3
          (Task.make (Returned 7) (fun _ : Z => Returned ())
             (TaskConfig_default esp32_tskNO_AFFINITY))
          (boot esp32_tskNO_AFFINITY))).1 = true.
Proof.
  apply (cancellation_is_never_taken_back esp32_tskNO_AFFINITY). reflexivity.
Defined.

(** ** The queue under exceptions and a busy mutex *)

Section QueueMore.
Context {T : Type} (call : T -> Outcome unit).
Implicit Types (queue done rest : list T) (arrivals : list (list T)).




End QueueMore.


Section UpdateMore.
Context {R : Type}.
Implicit Types (w : World R).


End UpdateMore.


(** ** Starting a task *)

Section RunMore.
Context {R : Type}.
Variable tskNO_AFFINITY : Z.
Implicit Types (t : Task R) (w : World R) (h : TaskHandle) (f : Closure R).

(** X6.  For a task that holds its [TaskHandle], [run()] returns true
    exactly when a work callable is bound and the Launcher created the
    context.  It has then recorded the context's handle, set [Running],
    stamped the start time and kept the cancellation flag; the Launcher
    holds one new context, at the start of the wrapper body and made from
    the task's callable; the task has a name; nothing was enqueued. *)
Theorem run_succeeds_exactly_when_launched launch now t w h :
  handle t = Some h ->
  exists ok t' w',
    Task.run tskNO_AFFINITY launch now t w = Some (ok, t', w') /\
    (ok = true <-> is_Some (taskFunc t) /\ is_Some launch) /\
    forall f k, taskFunc t = Some f -> launch = Some k ->
      handle t' =
        Some (mkTaskHandle (Some k) Running (cancelled h) now (endTime h)) /\
      taskFunc t' = Some f /\
      is_Some (name (config t')) /\
      live w' = <[k := mkContext f AtEntry]> (live w) /\
      callbackQueue w' = callbackQueue w.
Proof.
  intros Hh.
  assert ((exists f, taskFunc t = Some f) \/ taskFunc t = None)
    as [[f Hf]|Hf] by (destruct (taskFunc t); eauto).
  - rewrite (run_bound tskNO_AFFINITY launch now t w f h Hf Hh).
    destruct (named_spec t w) as (_ & _ & _ & _ & Eq & El & _).
    destruct launch as [k|]; simpl; eexists _, _, _;
      (split; [reflexivity|]); split.
    + split; [intros _; split; eauto|reflexivity].
    + intros f' k' Hf' [= <-]. simpl. rewrite El, Eq.
      assert (f' = f) as -> by congruence.
      split; [reflexivity|]. split; [reflexivity|].
      split; [|split; reflexivity].
      unfold Task.named. destruct (name (config t)) eqn:Hn; simpl; eauto.
    + split; [discriminate|]. intros [_ [k Hk]]. discriminate.
    + intros f' k' _ Hk. discriminate.
  - rewrite (run_unbound tskNO_AFFINITY launch now t w Hf).
    eexists _, _, _. split; [reflexivity|]. split.
    + split; [discriminate|]. rewrite Hf. intros [[f Hf'] _]. discriminate.
    + intros f k Hf'. congruence.
Qed.

End RunMore.

Lemma run_succeeds_exactly_when_launched_witness :
  exists t' w',
    Task.run esp32_tskNO_AFFINITY (Some 1%nat) 10
      (Task.make (Returned 7) (fun _ : Z => Returned ())
         (TaskConfig_default esp32_tskNO_AFFINITY))
      (boot esp32_tskNO_AFFINITY) = Some (true, t', w').
Proof.
  destruct (run_succeeds_exactly_when_launched esp32_tskNO_AFFINITY
              (Some 1%nat) 10
              (Task.make (Returned 7) (fun _ : Z => Returned ())
                 (TaskConfig_default esp32_tskNO_AFFINITY))
              (boot esp32_tskNO_AFFINITY) TaskHandle.new eq_refl)
    as (ok & t' & w' & Hrun & Hok & _).
  exists t', w'. rewrite Hrun.
  rewrite (proj2 Hok); [reflexivity|]. split; eexists; reflexivity.
Defined.

(** *** Generated names *)

Lemma pretty_N_go_length k x s :
  (x < 10 ^ N.of_nat k)%N ->
  (String.length (pretty_N_go x s) <= k + String.length s)%nat.
Proof.
  revert x s. induction k as [|k IH]; intros x s Hx.
  - assert (x = 0%N) as -> by (simpl in Hx; lia).
    rewrite pretty_N_go_0. lia.
  - destruct (decide (x = 0%N)) as [->|Hne].
    + rewrite pretty_N_go_0. lia.
    + rewrite pretty_N_go_step by lia.
      etransitivity; [apply IH|simpl; lia].
      rewrite Nat2N.inj_succ, N.pow_succ_r' in Hx.
      apply N.Div0.div_lt_upper_bound. exact Hx.
Qed.

Lemma taskName_length counter :
  (counter < 2 ^ 32)%N -> (String.length (Task.taskName counter) <= 15)%nat.
Proof.
  intros Hc. unfold Task.taskName. simpl. do 5 apply le_n_S.
  unfold pretty, pretty_N. case_decide; [simpl; lia|].
  pose proof (pretty_N_go_length 10 counter "") as Hlen. simpl in Hlen.
  apply Hlen. lia.
Qed.

Lemma taskName_inj c1 c2 : Task.taskName c1 = Task.taskName c2 -> c1 = c2.
Proof.
  unfold Task.taskName. simpl. intros [= H]. exact (pretty_N_inj _ _ H).
Qed.

(** X7.  A task without a name is named by [run()] after the process-wide
    counter, which then moves on by one modulo 2^32; a task with a name
    keeps it and uses up no number.  Different counter values give
    different names, so two tasks named one after the other never share
    a name, and for a counter below 2^32 the name has at most 15
    characters: with its end marker it fits the 16 bytes of the buffer. *)
Theorem generated_names_are_distinct_and_fit :
  (forall {R : Type} (t : Task R) (w : World R),
     name (config t) = None ->
     name (Task.named t w).1 = Some (Task.taskName (taskCounter w)) /\
     taskCounter (Task.named t w).2 = ((taskCounter w + 1) mod 2 ^ 32)%N) /\
  (forall {R : Type} (t : Task R) (w : World R),
     is_Some (name (config t)) -> Task.named t w = (config t, w)) /\
  (forall c1 c2, Task.taskName c1 = Task.taskName c2 -> c1 = c2) /\
  (forall {R : Type} (t1 t2 : Task R) (w : World R),
     name (config t1) = None -> name (config t2) = None ->
     name (Task.named t1 w).1 <> name (Task.named t2 (Task.named t1 w).2).1) /\
  (forall c, (c < 2 ^ 32)%N -> (String.length (Task.taskName c) <= 15)%nat).
Proof.
  split; [|split; [|split; [exact taskName_inj|split; [|exact taskName_length]]]].
  - intros R t w Hn. unfold Task.named. rewrite Hn. split; reflexivity.
  - intros R t w [n Hn]. unfold Task.named. rewrite Hn. reflexivity.
  - intros R t1 t2 w H1 H2.
    assert (name (Task.named t1 w).1 = Some (Task.taskName (taskCounter w)))
      as -> by (unfold Task.named; rewrite H1; reflexivity).
    assert (name (Task.named t2 (Task.named t1 w).2).1 =
            Some (Task.taskName ((taskCounter w + 1) mod 2 ^ 32)%N)) as ->
      by (unfold Task.named; rewrite H1, H2; reflexivity).
    intros H. assert (Task.taskName (taskCounter w) =
                      Task.taskName ((taskCounter w + 1) mod 2 ^ 32)%N) as H'
      by congruence.
    clear H. apply taskName_inj in H'. rename H' into H.
    assert ((taskCounter w + 1) mod 2 ^ 32 < 2 ^ 32)%N
      by (apply N.mod_lt; discriminate).
    destruct (decide (taskCounter w + 1 < 2 ^ 32)%N) as [Hlt|Hge].
    + rewrite N.mod_small in H by exact Hlt. lia.
    + rewrite <- H in H0.
      assert (taskCounter w = 4294967295%N) as Hc
        by (change (2 ^ 32)%N with 4294967296%N in *; lia).
      rewrite Hc in H. vm_compute in H. discriminate H.
Qed.

Lemma generated_names_are_distinct_and_fit_witness :
  Task.taskName 4294967295 = "Task_4294967295" /\
  (String.length (Task.taskName 4294967295) <= 15)%nat.
Proof.
  split; [reflexivity|].
  apply generated_names_are_distinct_and_fit. reflexivity.
Defined.

(** ** The entry points of [Async] *)

Section EntryPoints.
Context {R : Type}.
Variable tskNO_AFFINITY : Z.
Implicit Types (w : World R) (func : Outcome R) (cb : R -> Outcome unit).

Lemma Run_unfolded func cb config launch now w :
  Async.Run tskNO_AFFINITY func cb config launch now w =
    let t := Task.make func cb config in
    let cfg := (Task.named t w).1 in
    let w1 :=
      record [LauncherCalled
                (Task.launchCall tskNO_AFFINITY cfg
                   (globalConfig (Task.named t w).2))]
        (Task.named t w).2 in
    match launch with
    | None =>
        Some (mkTask (Some (TaskHandle.setState Failed now TaskHandle.new))
                cfg (Some (mkClosure func cb config)), w1)
    | Some k =>
        Some (mkTask
                (Some (TaskHandle.setHandle (Some k) now TaskHandle.new))
                cfg (Some (mkClosure func cb config)),
              set_live
                (<[k := mkContext (mkClosure func cb config) AtEntry]>
                   (live w1)) w1)
    end.
Proof.
  unfold Async.Run.
  rewrite (run_bound tskNO_AFFINITY launch now (Task.make func cb config) w
             (mkClosure func cb config) TaskHandle.new eq_refl eq_refl).
  destruct launch; reflexivity.
Qed.

(** X8.  [Async::Run] always hands back a task, having asked the Launcher
    once, and drops what [run()] returned: the task is [Running], with
    its context live at the start of the wrapper body, when the Launcher
    succeeded, and [Failed], with no context added and an elapsed time of
    0 from then on, when it did not.  The state is the only trace of a
    failed launch. *)
Theorem Run_yields_running_or_failed func cb config launch now w :
  exists t w',
    Async.Run tskNO_AFFINITY func cb config launch now w = Some (t, w') /\
    Task.getState t =
      match launch with Some _ => Running | None => Failed end /\
    Task.isRunning t = match launch with Some _ => true | None => false end /\
    taskFunc t = Some (mkClosure func cb config) /\
    (exists call, trace w' = trace w ++ [LauncherCalled call]) /\
    callbackQueue w' = callbackQueue w /\
    (forall k, launch = Some k ->
       live w' = <[k := mkContext (mkClosure func cb config) AtEntry]> (live w)) /\
    (launch = None ->
       live w' = live w /\ forall now', Task.getExecutionTime now' t = 0).
Proof.
  rewrite Run_unfolded.
  destruct (named_spec (Task.make func cb config) w)
    as (_ & _ & _ & _ & Eq & El & Et).
  destruct launch as [k|]; simpl; eexists _, _; (split; [reflexivity|]);
    simpl; rewrite Et, Eq, El; repeat split; eauto; try discriminate.
  intros k' [= <-]. reflexivity.
Qed.

Lemma Run_request func cb config launch now w :
  exists t w',
    Async.Run tskNO_AFFINITY func cb config launch now w = Some (t, w') /\
    trace w' =
      trace w ++
      [LauncherCalled
         (Task.launchCall tskNO_AFFINITY
            (Task.named (Task.make func cb config) w).1 (globalConfig w))].
Proof.
  rewrite Run_unfolded.
  destruct (named_spec (Task.make func cb config) w)
    as (_ & _ & _ & Eg & _ & _ & Et).
  destruct launch; simpl; eexists _, _; (split; [reflexivity|]);
    simpl; rewrite Et, Eg; reflexivity.
Qed.

(** X9.  [RunOnCore] and [RunWithPriority] override one field and leave
    the rest to the process-wide defaults.  [RunOnCore(core, ...)] asks
    for the default stack size and priority, pinned to [core]; but
    [core = tskNO_AFFINITY] means the default core.
    [RunWithPriority(priority, ...)] asks for the default stack size and
    core at [priority]; but priority 0 cannot be asked for: it means the
    default priority. *)
Theorem convenience_entry_points_override_one_field func cb launch now w :
  (forall core, exists t w' call,
     Async.RunOnCore tskNO_AFFINITY core func cb launch now w = Some (t, w') /\
     trace w' = trace w ++ [LauncherCalled call] /\
     call_stackSize call = defaultStackSize (globalConfig w) /\
     call_priority call = defaultPriority (globalConfig w) /\
     call_core tskNO_AFFINITY call =
       (if decide (core = tskNO_AFFINITY) then defaultCore (globalConfig w)
        else core) /\
     (core <> tskNO_AFFINITY ->
      call =
        xTaskCreatePinnedToCore (Some (Task.taskName (taskCounter w)))
          (defaultStackSize (globalConfig w))
          (defaultPriority (globalConfig w)) core)) /\
  (forall priority, exists t w' call,
     Async.RunWithPriority tskNO_AFFINITY priority func cb launch now w =
       Some (t, w') /\
     trace w' = trace w ++ [LauncherCalled call] /\
     call_stackSize call = defaultStackSize (globalConfig w) /\
     call_priority call =
       (if decide (priority = 0%N) then defaultPriority (globalConfig w)
        else priority) /\
     call_core tskNO_AFFINITY call = defaultCore (globalConfig w)).
Proof.
  split.
  - intros core. unfold Async.RunOnCore.
    destruct (Run_request func cb
                (mkTaskConfig 0 0 core None 0 true) launch now w)
      as (t & w' & Hrun & Htr).
    exists t, w'. eexists. split; [exact Hrun|]. split; [exact Htr|].
    destruct (launchCall_fields tskNO_AFFINITY
                (Task.named (Task.make func cb
                   (mkTaskConfig 0 0 core None 0 true)) w).1 (globalConfig w))
      as (Fs & Fp & Fc).
    rewrite Fs, Fp, Fc. simpl.
    unfold Task.effectiveCore. simpl.
    split; [reflexivity|]. split; [reflexivity|]. split.
    + destruct (decide (core = tskNO_AFFINITY)) as [Hc|Hc].
      * rewrite bool_decide_eq_false_2 by (intros Hne; exact (Hne Hc)).
        reflexivity.
      * rewrite bool_decide_eq_true_2 by exact Hc. reflexivity.
    + intros Hc.
      assert (bool_decide (core <> tskNO_AFFINITY) = true) as E
        by (apply bool_decide_eq_true_2; exact Hc).
      unfold Task.launchCall, Task.effectiveCore. simpl.
      rewrite E. simpl. rewrite E. reflexivity.
  - intros priority. unfold Async.RunWithPriority.
    destruct (Run_request func cb
                (mkTaskConfig 0 priority tskNO_AFFINITY None 0 true)
                launch now w)
      as (t & w' & Hrun & Htr).
    exists t, w'. eexists. split; [exact Hrun|]. split; [exact Htr|].
    destruct (launchCall_fields tskNO_AFFINITY
                (Task.named (Task.make func cb
                   (mkTaskConfig 0 priority tskNO_AFFINITY None 0 true)) w).1
                (globalConfig w))
      as (Fs & Fp & Fc).
    rewrite Fs, Fp, Fc. simpl.
    unfold Task.effectivePriority, Task.effectiveCore. simpl.
    split; [reflexivity|]. split.
    + destruct (decide (priority = 0%N)) as [->|Hp]; [reflexivity|].
      destruct (N.ltb_spec 0 priority); [reflexivity|lia].
    + rewrite bool_decide_eq_false_2 by (intros Hne; apply Hne; reflexivity).
      reflexivity.
Qed.

End EntryPoints.

(** ** The wrapper body, whatever it is given *)

Section BodyMore.
Context {R : Type}.
Variable tskNO_AFFINITY : Z.
Implicit Types (t : Task R) (w : World R) (h : TaskHandle) (f : Closure R).

(** X14.  One execution of [executeTask] delivers at most one completion,
    whatever the work does and whatever the flags are: it appends at most
    one thunk to the queue or calls the callback at most once, never
    both, and only for work that returned with the task not cancelled, in
    which case the thunk holds the callback and the result.  What was
    queued before stays in front.  Of the handle it writes only the state
    and the end time: the context handle, the cancellation flag and the
    start time are kept, and the Launcher and the configuration are not
    touched. *)
Theorem executeTask_delivers_at_most_once
    (func : Outcome R) (callback : R -> Outcome unit) h cfg now w :
  taskHandle (Task.executeTask func callback h cfg now w).1 = taskHandle h /\
  cancelled (Task.executeTask func callback h cfg now w).1 = cancelled h /\
  startTime (Task.executeTask func callback h cfg now w).1 = startTime h /\
  live (Task.executeTask func callback h cfg now w).2 = live w /\
  globalConfig (Task.executeTask func callback h cfg now w).2 =
    globalConfig w /\
  exists queued called_,
    callbackQueue (Task.executeTask func callback h cfg now w).2 =
      callbackQueue w ++ queued /\
    callbacks (trace (Task.executeTask func callback h cfg now w).2) =
      callbacks (trace w) ++ called_ /\
    (length queued + length called_ <= 1)%nat /\
    ((length queued + length called_ = 1)%nat ->
     exists result,
       func = Returned result /\ TaskHandle.isCancelled h = false /\
       (queued = [mkThunk callback result] /\ executeInLoop cfg = true \/
        called_ = [CallbackCalled callback result] /\
        executeInLoop cfg = false)).
Proof.
  unfold Task.executeTask.
  destruct (TaskHandle.isCancelled h) eqn:Hc; simpl.
  { repeat split. exists [], []. rewrite !app_nil_r.
    repeat split; [simpl; lia|simpl; lia]. }
  destruct func as [result|]; simpl.
  2:{ repeat split. exists [], []. rewrite callbacks_app. simpl.
      rewrite !app_nil_r. repeat split; [simpl; lia|simpl; lia]. }
  destruct (executeInLoop cfg) eqn:Hl; simpl.
  - repeat split. exists [mkThunk callback result], [].
    rewrite callbacks_app. simpl. rewrite !app_nil_r.
    repeat split; [simpl; lia|]. intros _. exists result. auto.
  - unfold call_thunk; simpl.
    destruct (callback result); simpl; repeat split;
      exists [], [CallbackCalled callback result];
      rewrite <- app_assoc, callbacks_app, app_nil_r;
      (repeat split; [simpl; lia|]); intros _; exists result; auto.
Qed.

Lemma wrapper_step_keeps_live f ph now h w :
  live (Task.wrapper_step f ph now h w).2 = live w.
Proof.
  destruct ph; simpl.
  - destruct (TaskHandle.isCancelled h); reflexivity.
  - destruct (cl_func f); [|reflexivity].
    destruct (TaskHandle.isCancelled h); simpl; [reflexivity|].
    destruct (executeInLoop (cl_cfg f)); reflexivity.
  - destruct (call_thunk th); reflexivity.
Qed.

(** One step of a context: it is gone, or it is one phase further, and
    no other context is touched. *)
Lemma worker_progress k now (s : Task R * World R) ctx :
  is_Some (handle s.1) ->
  live s.2 !! k = Some ctx ->
  is_Some (handle (System.worker k now s).1) /\
  (forall k', k' <> k ->
     live (System.worker k now s).2 !! k' = live s.2 !! k') /\
  (live (System.worker k now s).2 !! k = None \/
   exists ctx', live (System.worker k now s).2 !! k = Some ctx' /\
     phase_rank (ctx_phase ctx') = S (phase_rank (ctx_phase ctx))).
Proof.
  destruct s as [t w]. simpl. intros [h Hh] Hk.
  unfold System.worker. rewrite Hk, Hh.
  pose proof (wrapper_step_keeps_live (ctx_closure ctx) (ctx_phase ctx)
                now h w) as El.
  assert (match (Task.wrapper_step (ctx_closure ctx) (ctx_phase ctx)
                   now h w).1.1 with
          | Some ph' => phase_rank ph' = S (phase_rank (ctx_phase ctx))
          | None => True
          end) as Hrank.
  { destruct (ctx_phase ctx) as [| |th]; simpl.
    - destruct (TaskHandle.isCancelled h); exact I || reflexivity.
    - destruct (cl_func (ctx_closure ctx)); [|exact I].
      destruct (TaskHandle.isCancelled h); simpl; [exact I|].
      destruct (executeInLoop (cl_cfg (ctx_closure ctx))); exact I || reflexivity.
    - destruct (call_thunk th); exact I. }
  destruct (Task.wrapper_step _ _ _ _ _) as [[ph h'] w']. simpl in *.
  split; [eauto|]. rewrite El. destruct ph as [ph|]; simpl.
  - split; [intros k' Hne; apply lookup_insert_ne; congruence|].
    right. eexists. split; [apply lookup_insert_eq|exact Hrank].
  - split; [intros k' Hne; apply lookup_delete_ne; congruence|].
    left. apply lookup_delete_eq.
Qed.

Lemma worker_idle k now (s : Task R * World R) :
  live s.2 !! k = None -> System.worker k now s = s.
Proof.
  destruct s as [t w]. simpl. intros Hk. unfold System.worker.
  rewrite Hk. reflexivity.
Qed.

(** X13.  The wrapper releases its own context, by every path through
    the body: a context of a task that holds its [TaskHandle] is gone
    from the Launcher after at most three steps (the check, the work, a
    callback called on the worker), and its steps never touch another
    context. *)
Theorem wrapper_ends_within_three_steps k n1 n2 n3 (s : Task R * World R) :
  is_Some (handle s.1) ->
  live (System.worker k n3 (System.worker k n2 (System.worker k n1 s))).2
    !! k = None /\
  forall k', k' <> k ->
    live (System.worker k n3 (System.worker k n2 (System.worker k n1 s))).2
      !! k' = live s.2 !! k'.
Proof.
  intros Hh.
  destruct (live s.2 !! k) as [c0|] eqn:H0.
  2:{ rewrite (worker_idle k n1 s H0), (worker_idle k n2 s H0),
        (worker_idle k n3 s H0). auto. }
  destruct (worker_progress k n1 s c0 Hh H0) as (Hh1 & Ho1 & [E1|(c1 & E1 & R1)]).
  { rewrite (worker_idle k n2 _ E1), (worker_idle k n3 _ E1).
    split; [exact E1|exact Ho1]. }
  destruct (worker_progress k n2 _ c1 Hh1 E1) as (Hh2 & Ho2 & [E2|(c2 & E2 & R2)]).
  { rewrite worker_idle by assumption.
    split; [exact E2|]. intros k' Hne. rewrite Ho2, Ho1 by exact Hne.
    reflexivity. }
  destruct (worker_progress k n3 _ c2 Hh2 E2) as (Hh3 & Ho3 & [E3|(c3 & E3 & R3)]).
  { split; [exact E3|]. intros k' Hne.
    rewrite Ho3, Ho2, Ho1 by exact Hne. reflexivity. }
  exfalso. destruct (ctx_phase c0), (ctx_phase c1), (ctx_phase c2),
    (ctx_phase c3); simpl in *; discriminate.
Qed.

End BodyMore.

Lemma wrapper_ends_within_three_steps_witness :
  live
    (System.worker 1%nat 13
       (System.worker 1%nat 12
          (System.worker 1%nat 11
             (System.exec esp32_tskNO_AFFINITY [System.OpRun (Some 1%nat) 10]
                (Task.make (Returned 7) (fun _ : Z => Threw)
                   (mkTaskConfig 0 0 esp32_tskNO_AFFINITY None 0 false),
                 boot esp32_tskNO_AFFINITY))))).2 !! 1%nat = None.
Proof.
  apply (wrapper_ends_within_three_steps 1%nat 11 12 13).
  eexists. reflexivity.
Defined.

(** ** The elapsed time *)

(** X11.  For a task started when the clock read [start], not 0: while
    it has no end stamp the elapsed time at a clock reading [now] is
    [now - start], and [now - start + 2^32] once the 32-bit clock has
    wrapped around, so it grows with the clock between wrap-arounds; once
    an end is stamped it no longer depends on the clock.  It is always a
    32-bit value. *)
Theorem elapsed_time_grows_then_stands h now1 now2 :
  0 < startTime h < 2 ^ 32 ->
  uint32 now1 -> uint32 now2 ->
  (endTime h = 0 ->
   TaskHandle.getExecutionTime now1 h =
     (if startTime h <=? now1 then now1 - startTime h
      else now1 - startTime h + 2 ^ 32) /\
   (startTime h <= now1 -> now1 <= now2 ->
    TaskHandle.getExecutionTime now1 h <= TaskHandle.getExecutionTime now2 h)) /\
  (endTime h <> 0 ->
   TaskHandle.getExecutionTime now1 h = TaskHandle.getExecutionTime now2 h) /\
  0 <= TaskHandle.getExecutionTime now1 h < 2 ^ 32.
Proof.
  intros Hs H1 H2.
  assert (startTime h <> 0) as Hne by lia.
  assert (uint32 (startTime h)) as Hu by (unfold uint32; lia).
  split; [|split].
  - intros He. rewrite !(elapsed_running _ h Hne He).
    rewrite !wrap32_elapsed by assumption.
    split; [reflexivity|]. intros Hle1 Hle2.
    destruct (Z.leb_spec (startTime h) now1); [|lia].
    destruct (Z.leb_spec (startTime h) now2); lia.
  - intros He. rewrite !(elapsed_ended _ h Hne He). reflexivity.
  - unfold TaskHandle.getExecutionTime, wrap32.
    destruct (startTime h =? 0); [lia|].
    destruct (endTime h =? 0); apply Z.mod_pos_bound; lia.
Qed.

(** Started at 4294967000, read at 100 after the clock has wrapped. *)
Lemma elapsed_time_grows_then_stands_witness :
  TaskHandle.getExecutionTime 100
    (TaskHandle.setHandle (Some 1%nat) 4294967000 TaskHandle.new) = 396.
Proof.
  destruct (elapsed_time_grows_then_stands
              (TaskHandle.setHandle (Some 1%nat) 4294967000 TaskHandle.new)
              100 100) as (Hrun & _).
  1-3: unfold uint32; simpl; lia.
  destruct (Hrun eq_refl) as [E _]. rewrite E. reflexivity.
Defined.

(** ** Whole lives of a task *)

Section Lives.
Context {R : Type}.
Variable tskNO_AFFINITY : Z.
Implicit Types (t : Task R) (w : World R) (h : TaskHandle) (f : Closure R).

(** What [run()] with a successful launch makes of a freshly made task. *)
Lemma apply_run_fresh func callback cfg k now w :
  System.apply tskNO_AFFINITY (System.OpRun (Some k) now)
    (Task.make func callback cfg, w) =
    (mkTask (Some (mkTaskHandle (Some k) Running false now 0))
       (Task.named (Task.make func callback cfg) w).1
       (Some (mkClosure func callback cfg)),
     set_live
       (<[k := mkContext (mkClosure func callback cfg) AtEntry]> (live w))
       (record
          [LauncherCalled
             (Task.launchCall tskNO_AFFINITY
                (Task.named (Task.make func callback cfg) w).1
                (globalConfig w))]
          (Task.named (Task.make func callback cfg) w).2)).
Proof.
  simpl.
  rewrite (run_bound tskNO_AFFINITY (Some k) now (Task.make func callback cfg)
             w (mkClosure func callback cfg) TaskHandle.new eq_refl eq_refl).
  destruct (named_spec (Task.make func callback cfg) w)
    as (_ & _ & _ & Eg & _ & El & _).
  simpl. rewrite El, Eg. reflexivity.
Qed.

Lemma worker_at k now t w h ctx :
  handle t = Some h -> live w !! k = Some ctx ->
  System.worker k now (t, w) =
    (mkTask
       (Some (Task.wrapper_step (ctx_closure ctx) (ctx_phase ctx) now h w).1.2)
       (config t) (taskFunc t),
     set_live
       match (Task.wrapper_step (ctx_closure ctx) (ctx_phase ctx) now h w).1.1
       with
       | Some ph =>
           <[k := mkContext (ctx_closure ctx) ph]>
             (live (Task.wrapper_step (ctx_closure ctx) (ctx_phase ctx)
                      now h w).2)
       | None =>
           delete k
             (live (Task.wrapper_step (ctx_closure ctx) (ctx_phase ctx)
                      now h w).2)
       end
       (Task.wrapper_step (ctx_closure ctx) (ctx_phase ctx) now h w).2).
Proof.
  intros Hh Hk. unfold System.worker. rewrite Hk, Hh.
  destruct (Task.wrapper_step _ _ _ _ _) as [[ph h'] w']. reflexivity.
Qed.

Lemma exec_cons op ops (s : Task R * World R) :
  System.exec tskNO_AFFINITY (op :: ops) s =
    System.exec tskNO_AFFINITY ops (System.apply tskNO_AFFINITY op s).
Proof. reflexivity. Qed.

Lemma exec_nil (s : Task R * World R) : System.exec tskNO_AFFINITY [] s = s.
Proof. reflexivity. Qed.

(** X12.  A whole life with delivery through the queue.  For a task
    made with [executeInLoop] set, under a process-wide configuration with
    in-loop execution enabled and an empty queue: after a successful
    [run()], the two steps of the body and one [update()] that gets the
    mutex, the state is [Completed] with the start and end stamps of
    [run()] and of the return of the work, the Launcher was asked once,
    the work was entered once and afterwards the callback was called once
    with the result; nothing is pending, the context is gone and no other
    context was touched. *)
Theorem started_task_completes_and_delivers
    (result : R) (callback : R -> Outcome unit) cfg k n0 n1 n2 w :
  executeInLoop cfg = true ->
  executeCallbacksInLoop (globalConfig w) = true ->
  callbackQueue w = [] ->
  let s :=
    System.exec tskNO_AFFINITY
      [System.OpRun (Some k) n0; System.OpWorker k n1; System.OpWorker k n2;
       System.OpUpdate true []]
      (Task.make (Returned result) callback cfg, w) in
  handle s.1 = Some (mkTaskHandle (Some k) Completed false n0 n2) /\
  (exists call,
     trace s.2 =
       trace w ++
       [LauncherCalled call; WorkCalled; CallbackCalled callback result]) /\
  Async.pendingCallbacks s.2 = 0%nat /\
  live s.2 !! k = None /\
  forall k', k' <> k -> live s.2 !! k' = live w !! k'.
Proof.
  intros Hl Hg Hq s. subst s. rewrite !exec_cons, exec_nil.
  rewrite apply_run_fresh.
  destruct (named_spec (Task.make (Returned result) callback cfg) w)
    as (_ & _ & _ & Eg & Eq & El & Et).
  set (cfg' := (Task.named (Task.make (Returned result) callback cfg) w).1) in *.
  set (w0 := (Task.named (Task.make (Returned result) callback cfg) w).2) in *.
  simpl. rewrite lookup_insert_eq. simpl. rewrite lookup_insert_eq. simpl.
  rewrite Hl. simpl. unfold Async.update. simpl. rewrite Eg, Hg, Eq, Hq. simpl.
  destruct (callback result); simpl; rewrite Et;
    (split; [reflexivity|]);
    (split; [eexists; rewrite <- !app_assoc; reflexivity|]);
    (split; [reflexivity|]);
    (split; [apply lookup_delete_eq|]);
    intros k' Hne;
    rewrite lookup_delete_ne, !lookup_insert_ne by congruence; reflexivity.
Qed.

(** X18.  A whole life with delivery on the worker.  For a task made with
    [executeInLoop] unset, after a successful [run()] and the three steps
    of the body: the work was entered once and the callback was called
    once with the result, on the worker, with nothing enqueued and no
    [update()] needed.  If the callback returned the state is
    [Completed]; if it threw, the state that had been set to [Completed]
    is [Failed] in the end, the callback having been called all the
    same. *)
Theorem inline_delivery_and_throwing_callback
    (result : R) (callback : R -> Outcome unit) cfg k n0 n1 n2 n3 w :
  executeInLoop cfg = false ->
  let s2 :=
    System.exec tskNO_AFFINITY
      [System.OpRun (Some k) n0; System.OpWorker k n1; System.OpWorker k n2]
      (Task.make (Returned result) callback cfg, w) in
  let s := System.worker k n3 s2 in
  Task.getState s2.1 = Completed /\
  Task.getState s.1 =
    match callback result with Returned _ => Completed | Threw => Failed end /\
  (exists call,
     trace s.2 =
       trace w ++
       [LauncherCalled call; WorkCalled; CallbackCalled callback result]) /\
  callbackQueue s.2 = callbackQueue w /\
  live s.2 !! k = None.
Proof.
  intros Hl s2 s. subst s s2. rewrite !exec_cons, exec_nil.
  rewrite apply_run_fresh.
  destruct (named_spec (Task.make (Returned result) callback cfg) w)
    as (_ & _ & _ & Eg & Eq & El & Et).
  set (cfg' := (Task.named (Task.make (Returned result) callback cfg) w).1) in *.
  set (w0 := (Task.named (Task.make (Returned result) callback cfg) w).2) in *.
  simpl. rewrite lookup_insert_eq. simpl. rewrite lookup_insert_eq. simpl.
  rewrite Hl. simpl. rewrite lookup_insert_eq. simpl.
  unfold call_thunk. simpl.
  destruct (callback result); simpl; rewrite Et, Eq;
    (split; [reflexivity|]); (split; [reflexivity|]);
    (split; [eexists; rewrite <- !app_assoc; reflexivity|]);
    (split; [reflexivity|apply lookup_delete_eq]).
Qed.

(** X15.  A task cancelled while [Pending] and started afterwards is
    launched all the same, and its context leaves at the first check:
    the work is not entered, nothing is enqueued or called, the context
    is gone.  No [Cancelled] transition takes place: the state stays
    [Running], with [isRunning()] false and the handle of the finished
    context still recorded, until a further [cancel()] sets
    [Cancelled]. *)
Theorem cancelled_before_run_stays_running
    (func : Outcome R) (callback : R -> Outcome unit) cfg k n0 n1 n2 n3 w :
  let s :=
    System.exec tskNO_AFFINITY
      [System.OpCancel n0; System.OpRun (Some k) n1; System.OpWorker k n2]
      (Task.make func callback cfg, w) in
  handle s.1 = Some (mkTaskHandle (Some k) Running true n1 0) /\
  Task.getState s.1 = Running /\
  Task.isRunning s.1 = false /\
  (exists call, trace s.2 = trace w ++ [LauncherCalled call]) /\
  callbackQueue s.2 = callbackQueue w /\
  live s.2 !! k = None /\
  Task.getState (Task.cancel n3 s.1 s.2).1 = Cancelled.
Proof.
  intros s. subst s. rewrite !exec_cons, exec_nil.
  set (t0 := mkTask (Some (mkTaskHandle None Pending true 0 0)) cfg
               (Some (mkClosure func callback cfg))).
  assert (System.apply tskNO_AFFINITY (System.OpCancel n0)
            (Task.make func callback cfg, w) = (t0, w)) as ->.
  { simpl. unfold Task.cancel. simpl. rewrite set_live_same. reflexivity. }
  assert (System.apply tskNO_AFFINITY (System.OpRun (Some k) n1) (t0, w) =
          (mkTask (Some (mkTaskHandle (Some k) Running true n1 0))
             (Task.named t0 w).1 (Some (mkClosure func callback cfg)),
           set_live
             (<[k := mkContext (mkClosure func callback cfg) AtEntry]>
                (live (Task.named t0 w).2))
             (record
                [LauncherCalled
                   (Task.launchCall tskNO_AFFINITY (Task.named t0 w).1
                      (globalConfig (Task.named t0 w).2))]
                (Task.named t0 w).2))) as ->.
  { simpl.
    rewrite (run_bound tskNO_AFFINITY (Some k) n1 t0 w
               (mkClosure func callback cfg)
               (mkTaskHandle None Pending true 0 0) eq_refl eq_refl).
    reflexivity. }
  destruct (named_spec t0 w) as (_ & _ & _ & Eg & Eq & El & Et).
  simpl. rewrite lookup_insert_eq. simpl. rewrite Et, Eq.
  repeat split; eauto. apply lookup_delete_eq.
Qed.

End Lives.

Lemma started_task_completes_and_delivers_witness :
  Async.pendingCallbacks
    (System.exec esp32_tskNO_AFFINITY
       [System.OpRun (Some 1%nat) 10; System.OpWorker 1%nat 11;
        System.OpWorker 1%nat 12; System.OpUpdate true []]
       (Task.make (Returned 7) (fun _ : Z => Returned ())
          (TaskConfig_default esp32_tskNO_AFFINITY),
        boot esp32_tskNO_AFFINITY)).2 = 0%nat.
Proof.
  apply (started_task_completes_and_delivers esp32_tskNO_AFFINITY 7
           (fun _ : Z => Returned ())
           (TaskConfig_default esp32_tskNO_AFFINITY) 1%nat 10 11 12
           (boot esp32_tskNO_AFFINITY) eq_refl eq_refl eq_refl).
Defined.

Lemma inline_delivery_and_throwing_callback_witness :
  Task.getState
    (System.worker 1%nat 13
       (System.exec esp32_tskNO_AFFINITY
          [System.OpRun (Some 1%nat) 10; System.OpWorker 1%nat 11;
           System.OpWorker 1%nat 12]
          (Task.make (Returned 7) (fun _ : Z => Threw)
             (mkTaskConfig 0 0 esp32_tskNO_AFFINITY None 0 false),
           boot esp32_tskNO_AFFINITY))).1 = Failed.
Proof.
  apply (inline_delivery_and_throwing_callback esp32_tskNO_AFFINITY 7
           (fun _ : Z => Threw)
           (mkTaskConfig 0 0 esp32_tskNO_AFFINITY None 0 false) 1%nat
           10 11 12 13 (boot esp32_tskNO_AFFINITY) eq_refl).
Defined.

Section FireAndForget.
Variable tskNO_AFFINITY : Z.

(** X10.  A fire-and-forget task is an ordinary task with a callback that
    does nothing, so its completion is delivered like any other: made
    with [executeInLoop] set, it leaves one more thunk pending when its
    work returns, although nobody waits for it, and with in-loop
    execution disabled process-wide no [update()] ever takes that thunk
    away. *)
Theorem fire_and_forget_still_queues config k n0 n1 n2 (w : World unit) :
  executeInLoop config = true ->
  exists t w',
    Async.RunFireAndForget tskNO_AFFINITY (Returned ()) config (Some k) n0 w =
      Some (t, w') /\
    let s :=
      System.exec tskNO_AFFINITY [System.OpWorker k n1; System.OpWorker k n2]
        (t, w') in
    Task.getState s.1 = Completed /\
    Async.pendingCallbacks s.2 = S (Async.pendingCallbacks w) /\
    callbacks (trace s.2) = callbacks (trace w) /\
    live s.2 !! k = None /\
    (executeCallbacksInLoop (globalConfig w) = false ->
     forall acquired arrivals,
       Async.pendingCallbacks (Async.update acquired arrivals s.2).2 =
         S (Async.pendingCallbacks w)).
Proof.
  intros Hl. unfold Async.RunFireAndForget. rewrite Run_unfolded. cbv zeta.
  destruct (named_spec
              (Task.make (Returned ()) (fun _ : unit => Returned ()) config) w)
    as (_ & _ & _ & Eg & Eq & El & Et).
  set (cfg' := (Task.named (Task.make (Returned ())
                  (fun _ : unit => Returned ()) config) w).1) in *.
  set (w0 := (Task.named (Task.make (Returned ())
                (fun _ : unit => Returned ()) config) w).2) in *.
  simpl. eexists _, _. split; [reflexivity|].
  unfold System.exec. simpl.
  rewrite lookup_insert_eq. simpl. rewrite lookup_insert_eq. simpl.
  rewrite Hl. simpl. rewrite Et, Eq, Eg.
  unfold Async.pendingCallbacks, CallbackQueue.size, CallbackQueue.enqueue.
  simpl. rewrite ?Eq, ?length_app, !callbacks_app. simpl.
  rewrite !app_nil_r.
  split; [reflexivity|]. split; [lia|]. split; [reflexivity|].
  split; [apply lookup_delete_eq|].
  intros Hg acquired arrivals. rewrite update_disabled by (simpl; congruence).
  simpl. rewrite ?Eq, ?length_app. simpl. lia.
Qed.

End FireAndForget.

Lemma fire_and_forget_still_queues_witness :
  exists t w',
    Async.RunFireAndForget esp32_tskNO_AFFINITY (Returned ())
      (TaskConfig_default esp32_tskNO_AFFINITY) (Some 1%nat) 10
      (Async.setConfig sketch_config (boot esp32_tskNO_AFFINITY)) =
      Some (t, w') /\
    Async.pendingCallbacks
      (System.exec esp32_tskNO_AFFINITY
         [System.OpWorker 1%nat 11; System.OpWorker 1%nat 12] (t, w')).2 =
      1%nat.
Proof.
  destruct (fire_and_forget_still_queues esp32_tskNO_AFFINITY
              (TaskConfig_default esp32_tskNO_AFFINITY) 1%nat 10 11 12
              (Async.setConfig sketch_config (boot esp32_tskNO_AFFINITY))
              eq_refl)
    as (t & w' & Hrun & _ & Hp & _).
  exists t, w'. split; [exact Hrun|exact Hp].
Defined.

(** ** What [isRunning()] says *)

Section Truthful.
Context {R : Type}.
Variable tskNO_AFFINITY : Z.
Implicit Types (t : Task R) (w : World R) (h : TaskHandle).

Lemma apply_truthful op (s : Task R * World R) :
  consistent s -> truthful s -> System.permitted op s = true ->
  truthful (System.apply tskNO_AFFINITY op s).
Proof.
  destruct s as [t w]. intros (Hsafe & h & Hh & Hlive) Htruth Hop.
  simpl in Hsafe, Hh, Hlive. unfold truthful in *. simpl in Htruth.
  destruct op as [launch now|now|k now|acq arr|hd now|st now];
    simpl in Hop; try discriminate; simpl.
  - assert ((exists f, taskFunc t = Some f) \/ taskFunc t = None)
      as [[f Hf]|Hf] by (destruct (taskFunc t); eauto).
    + rewrite (run_bound tskNO_AFFINITY launch now t w f h Hf Hh).
      destruct (named_spec t w) as (_ & _ & _ & _ & _ & El & _).
      destruct launch as [k|]; simpl.
      * intros h' [= <-] _ _. simpl. exists k. eexists.
        split; [reflexivity|]. apply lookup_insert_eq.
      * intros h' [= <-]. simpl. discriminate.
    + rewrite (run_unbound tskNO_AFFINITY launch now t w Hf). exact Htruth.
  - unfold Task.cancel. rewrite Hh.
    pose proof (cancel_sets_flag now h (live w)) as Hflag.
    destruct (TaskHandle.cancel now h (live w)) as [h1 l1]. simpl in *.
    intros h' [= <-] _ Hc. congruence.
  - unfold System.worker.
    destruct (live w !! k) as [ctx|] eqn:Hk; [|exact Htruth].
    rewrite Hh. destruct (Hlive k ctx Hk) as (_ & Hkh & Hph).
    destruct (wrapper_step_keeps_flag (ctx_closure ctx) (ctx_phase ctx)
                now h w) as [Ec Eh].
    assert (state (Task.wrapper_step (ctx_closure ctx) (ctx_phase ctx)
                     now h w).1.2 = Running ->
            cancelled h = false ->
            exists ph,
              (Task.wrapper_step (ctx_closure ctx) (ctx_phase ctx)
                 now h w).1.1 = Some ph) as Hstay.
    { destruct (ctx_phase ctx) as [| |th]; simpl in *.
      - unfold TaskHandle.isCancelled. intros _ ->. eauto.
      - unfold TaskHandle.isCancelled.
        destruct (cl_func (ctx_closure ctx)); [|discriminate].
        intros Hs Hc. rewrite Hc in *. simpl in *.
        destruct (executeInLoop (cl_cfg (ctx_closure ctx))); simpl in *;
          [discriminate|eauto].
      - destruct Hph as [Hs _].
        destruct (call_thunk th); simpl; intros; congruence. }
    destruct (Task.wrapper_step _ _ _ _ _) as [[ph h1] w1]. simpl in *.
    intros h' [= <-] Hs Hc. destruct (Hstay Hs) as [ph' ->]; [congruence|].
    exists k. eexists. split; [congruence|]. apply lookup_insert_eq.
  - intros h' Hh' Hs Hc. rewrite update_keeps_live. eauto.
Qed.

Lemma exec_truthful ops (s : Task R * World R) :
  consistent s -> truthful s ->
  System.disciplined tskNO_AFFINITY ops s = true ->
  consistent (System.exec tskNO_AFFINITY ops s) /\
  truthful (System.exec tskNO_AFFINITY ops s).
Proof.
  revert s. induction ops as [|op ops IH]; intros s Hc Ht Hops; [auto|].
  simpl in Hops. apply andb_prop in Hops as [Hop Hops].
  simpl. apply IH; [|apply apply_truthful; assumption|exact Hops].
  exact (proj1 (apply_forward tskNO_AFFINITY op s Hc Hop)).
Qed.

(** X17.  When [isRunning()] can be believed.  Take [run()] as one atomic
    operation, so that the context it creates takes no step before
    [run()] has recorded its handle.  Then, for a task that starts
    [Pending] with no context live, whose callback does not throw on the
    worker, under any schedule of such operations that calls [run()] only
    while the task is [Pending]: whenever [isRunning()] is true, the
    handle recorded in the task is that of a context that is alive in
    the Launcher and has not yet finished the work.  Without the
    atomicity this fails, see
    [body_can_finish_before_the_handle_is_recorded]. *)
Theorem isRunning_means_a_live_context ops t h w :
  handle t = Some h ->
  state h = Pending ->
  live w = ∅ ->
  (forall f, taskFunc t = Some f -> inline_safe f) ->
  System.disciplined tskNO_AFFINITY ops (t, w) = true ->
  Task.isRunning (System.exec tskNO_AFFINITY ops (t, w)).1 = true ->
  exists h' k ctx,
    handle (System.exec tskNO_AFFINITY ops (t, w)).1 = Some h' /\
    taskHandle h' = Some k /\
    live (System.exec tskNO_AFFINITY ops (t, w)).2 !! k = Some ctx /\
    (ctx_phase ctx = AtEntry \/ ctx_phase ctx = InWork).
Proof.
  intros Hh Hs Hl Hsafe Hops Hrun.
  destruct (exec_truthful ops (t, w)) as [Hc Ht]; [| |exact Hops|].
  - split; [exact Hsafe|]. exists h. split; [exact Hh|].
    simpl. intros k ctx. rewrite Hl, lookup_empty. discriminate.
  - intros h0. simpl. rewrite Hh. intros [= <-]. congruence.
  - unfold Task.isRunning in Hrun.
    destruct (handle (System.exec tskNO_AFFINITY ops (t, w)).1) as [h'|] eqn:Hh';
      [|discriminate].
    unfold TaskHandle.isRunning in Hrun.
    apply andb_prop in Hrun as [Hst Hcn].
    apply bool_decide_eq_true_1 in Hst. apply negb_true_iff in Hcn.
    destruct (Ht h' Hh' Hst Hcn) as (k & ctx & Hk & Hlk).
    exists h', k, ctx. repeat split; try assumption.
    destruct Hc as (_ & h'' & Hh'' & Hlive). rewrite Hh' in Hh''.
    injection Hh'' as <-.
    destruct (Hlive k ctx Hlk) as (_ & _ & Hph).
    destruct (ctx_phase ctx); simpl in Hph; auto.
    destruct Hph; congruence.
Qed.

End Truthful.

Lemma isRunning_means_a_live_context_witness :
  exists h' k ctx,
    handle
      (System.exec esp32_tskNO_AFFINITY
         [System.OpRun (Some 1%nat) 10; System.OpWorker 1%nat 11]
         (Task.make (Returned 7) (fun _ : Z => Returned ())
            (TaskConfig_default esp32_tskNO_AFFINITY),
          boot esp32_tskNO_AFFINITY)).1 = Some h' /\
    taskHandle h' = Some k /\
    live
      (System.exec esp32_tskNO_AFFINITY
         [System.OpRun (Some 1%nat) 10; System.OpWorker 1%nat 11]
         (Task.make (Returned 7) (fun _ : Z => Returned ())
            (TaskConfig_default esp32_tskNO_AFFINITY),
          boot esp32_tskNO_AFFINITY)).2 !! k = Some ctx /\
    (ctx_phase ctx = AtEntry \/ ctx_phase ctx = InWork).
Proof.
  apply (isRunning_means_a_live_context esp32_tskNO_AFFINITY
           [System.OpRun (Some 1%nat) 10; System.OpWorker 1%nat 11]
           (Task.make (Returned 7) (fun _ : Z => Returned ())
              (TaskConfig_default esp32_tskNO_AFFINITY))
           TaskHandle.new (boot esp32_tskNO_AFFINITY)).
  - reflexivity.
  - reflexivity.
  - reflexivity.
  - intros f [= <-] Hl. discriminate Hl.
  - reflexivity.
  - reflexivity.
Defined.

(** ** Running a task twice *)

Section RunTwice.
Context {R : Type}.
Variable tskNO_AFFINITY : Z.
Implicit Types (w : World R).

(** X19.  [run()] does not ask whether the task was started before.  A
    second [run()] creates a second context of the same callable and
    overwrites the recorded handle and the start time, so that the first
    context can no longer be reached by [cancel()]; both contexts do the
    work, and a task made with [executeInLoop] set is delivered twice:
    the work is entered twice and two thunks with the callback and the
    result are queued. *)
Theorem second_run_starts_the_work_again
    (result : R) (callback : R -> Outcome unit) cfg k1 k2
    n1 n2 n3 n4 n5 n6 w :
  executeInLoop cfg = true ->
  k1 <> k2 ->
  let s2 :=
    System.exec tskNO_AFFINITY
      [System.OpRun (Some k1) n1; System.OpRun (Some k2) n2]
      (Task.make (Returned result) callback cfg, w) in
  let s :=
    System.exec tskNO_AFFINITY
      [System.OpWorker k1 n3; System.OpWorker k1 n4;
       System.OpWorker k2 n5; System.OpWorker k2 n6] s2 in
  handle s2.1 = Some (mkTaskHandle (Some k2) Running false n2 0) /\
  is_Some (live s2.2 !! k1) /\
  is_Some (live s2.2 !! k2) /\
  is_Some (live (Task.cancel n3 s2.1 s2.2).2 !! k1) /\
  works (trace s.2) = works (trace w) ++ [WorkCalled; WorkCalled] /\
  callbackQueue s.2 =
    callbackQueue w ++ [mkThunk callback result; mkThunk callback result].
Proof.
  intros Hl Hne s2 s. subst s s2. rewrite !exec_cons, !exec_nil.
  rewrite apply_run_fresh.
  destruct (named_spec (Task.make (Returned result) callback cfg) w)
    as (_ & _ & _ & Eg & Eq & El & Et).
  set (cfg' := (Task.named (Task.make (Returned result) callback cfg) w).1) in *.
  set (w0 := (Task.named (Task.make (Returned result) callback cfg) w).2) in *.
  match goal with
  | |- context [System.apply _ (System.OpRun (Some k2) n2) (?t, ?w1)] =>
      assert (exists cfg2 w2,
                System.apply tskNO_AFFINITY (System.OpRun (Some k2) n2) (t, w1) =
                  (mkTask (Some (mkTaskHandle (Some k2) Running false n2 0))
                     cfg2 (Some (mkClosure (Returned result) callback cfg)),
                   w2) /\
                live w2 =
                  <[k2 := mkContext (mkClosure (Returned result) callback cfg)
                            AtEntry]> (live w1) /\
                callbackQueue w2 = callbackQueue w /\
                works (trace w2) = works (trace w))
        as (cfg2 & w2 & -> & El2 & Eq2 & Et2)
  end.
  { simpl.
    erewrite run_bound; [|reflexivity|reflexivity].
    match goal with
    | |- context [Task.named ?t ?w1] =>
        destruct (named_spec t w1) as (_ & _ & _ & _ & Eq' & El' & Et')
    end.
    simpl in *. eexists _, _. split; [reflexivity|]. simpl.
    rewrite El', Eq', Et', Eq, Et, !works_app. simpl. rewrite !app_nil_r.
    repeat split. }
  destruct w2 as [g2 q2 c2 l2 tr2]. simpl in El2, Eq2, Et2. subst l2 q2.
  split; [reflexivity|].
  split; [simpl; rewrite lookup_insert_ne, lookup_insert_eq by congruence;
          eauto|].
  split; [simpl; rewrite lookup_insert_eq; eauto|].
  split.
  { unfold Task.cancel. simpl. unfold TaskHandle.vTaskDelete.
    rewrite lookup_delete_ne, lookup_insert_ne, lookup_insert_eq by congruence.
    eauto. }
  simpl.
  rewrite lookup_insert_ne, lookup_insert_eq by congruence. simpl.
  rewrite lookup_insert_eq. simpl. rewrite Hl. simpl.
  rewrite lookup_delete_ne, lookup_insert_ne, lookup_insert_eq by congruence.
  simpl. rewrite lookup_insert_eq. simpl. rewrite Hl. simpl.
  rewrite !works_app, Et2. simpl.
  unfold CallbackQueue.enqueue. rewrite <- !app_assoc. simpl.
  rewrite ?app_nil_r.
  split; reflexivity.
Qed.

End RunTwice.

Lemma second_run_starts_the_work_again_witness :
  callbackQueue
    (System.exec esp32_tskNO_AFFINITY
       [System.OpWorker 1%nat 13; System.OpWorker 1%nat 14;
        System.OpWorker 2%nat 15; System.OpWorker 2%nat 16]
       (System.exec esp32_tskNO_AFFINITY
          [System.OpRun (Some 1%nat) 11; System.OpRun (Some 2%nat) 12]
          (Task.make (Returned 7) (fun _ : Z => Returned ())
             (TaskConfig_default esp32_tskNO_AFFINITY),
           boot esp32_tskNO_AFFINITY))).2 =
    callbackQueue (boot (R:=Z) esp32_tskNO_AFFINITY) ++
    [mkThunk (fun _ : Z => Returned ()) 7; mkThunk (fun _ : Z => Returned ()) 7].
Proof.
  apply (second_run_starts_the_work_again esp32_tskNO_AFFINITY 7
           (fun _ : Z => Returned ())
           (TaskConfig_default esp32_tskNO_AFFINITY) 1%nat 2%nat
           11 12 13 14 15 16 (boot esp32_tskNO_AFFINITY) eq_refl).
  discriminate.
Defined.

(** ** [run()] is not atomic *)

Section Race.
Context {R : Type}.
Variable tskNO_AFFINITY : Z.
Implicit Types (w : World R).

(** X20.  [run()] creates the context before it records the handle, and
    the context can run in between.  [System.launch] followed by
    [setHandle] is [run()] with a successful launch.  If the context goes
    through the whole body between the two, the work is done and the
    state is final, [Completed] or [Failed], when [setHandle] then writes
    [Running] over it: the task ends [Running], with [isRunning()] true,
    although its context is gone; the state has gone backwards. *)
Theorem body_can_finish_before_the_handle_is_recorded
    (func : Outcome R) (callback : R -> Outcome unit) cfg k n1 n2 n3 n4 w :
  let launched :=
    System.launch tskNO_AFFINITY k (Task.make func callback cfg, w) in
  let s3 :=
    System.worker k n3 (System.worker k n2 (System.worker k n1 launched)) in
  let s := System.on_handle (TaskHandle.setHandle (Some k) n4) s3 in
  System.on_handle (TaskHandle.setHandle (Some k) n4) launched =
    System.apply tskNO_AFFINITY (System.OpRun (Some k) n4)
      (Task.make func callback cfg, w) /\
  Task.getState launched.1 = Pending /\
  works (trace s3.2) = works (trace w) ++ [WorkCalled] /\
  TaskHandle.is_terminal (Task.getState s3.1) = true /\
  live s3.2 !! k = None /\
  Task.getState s.1 = Running /\
  Task.isRunning s.1 = true /\
  live s.2 !! k = None /\
  forward (Task.getState s3.1) (Task.getState s.1) = false.
Proof.
  intros launched s3 s. subst s s3 launched.
  rewrite apply_run_fresh. unfold System.launch. simpl taskFunc. cbv iota.
  destruct (named_spec (Task.make func callback cfg) w)
    as (_ & _ & _ & Eg & Eq & El & Et).
  destruct (Task.named (Task.make func callback cfg) w) as [cfg' w0] eqn:Hn.
  simpl in Eg, Eq, El, Et. simpl.
  split; [rewrite Eg, El; reflexivity|]. split; [reflexivity|].
  rewrite lookup_insert_eq. simpl. rewrite lookup_insert_eq. simpl.
  destruct func as [result|]; simpl.
  - destruct (executeInLoop cfg); simpl.
    + rewrite lookup_delete_eq. simpl.
      rewrite !works_app, Et. simpl. rewrite !app_nil_r.
      repeat split; apply lookup_delete_eq.
    + rewrite lookup_insert_eq. simpl. unfold call_thunk. simpl.
      destruct (callback result); simpl;
        rewrite !works_app, Et; simpl; rewrite !app_nil_r;
        repeat split; apply lookup_delete_eq.
  - rewrite lookup_delete_eq. simpl.
    rewrite !works_app, Et. simpl. rewrite !app_nil_r.
    repeat split; apply lookup_delete_eq.
Qed.

End Race.
